(** * CryptAPI's Python helper ([cryptapi/crypt_api.py]): a shallow embedding

    The helper is one class, [CryptAPIHelper], whose methods shape request
    parameters, hand them to the shared [process_request] routine and look
    at the decoded JSON answer.  The embedding keeps that structure:

    - Python values are the inductive [Any]; a [dict] is an association
      list kept in insertion order, with Python's assignment semantics;
    - exceptions are the type [exn], fallible code returns a [result];
    - the network is explicit state: a [world] records which client sessions
      are open and which requests went out, and code that touches it lives
      in the state-and-error monad [M];
    - the remote gateway and the JSON decoder are collaborators of the
      helper, taken as Section variables.

    Python's [str.upper] is a collaborator too: [get_supported_coins] takes
    it as the Section variable [str_upper], and [Str.upper] says what it
    does on ASCII text. *)

From Stdlib Require Import String Ascii List ZArith Bool Lia.
Import ListNotations.
Open Scope string_scope.

(** ** Python values *)

#[local] Set Warnings "-register-all".

Inductive Any : Type :=
| VNone
| VBool (b : bool)
| VInt (z : Z)
| VFloat (mantissa exponent : Z)
| VStr (s : string)
| VList (l : list Any)
| VDict (d : list (string * Any)).

Definition dict : Type := list (string * Any).

(** [v == s] for a string literal [s]: only a [str] compares equal to it. *)
Definition eq_str (v : Any) (s : string) : bool :=
  match v with
  | VStr t => String.eqb t s
  | _ => false
  end.

(** Truthiness of an [Optional[str]] argument: [None] and [""] are falsy. *)
Definition truthy_str (o : option string) : bool :=
  match o with
  | Some (String _ _) => true
  | _ => false
  end.

(** ** Dictionaries in insertion order *)

Module Dict.

Fixpoint get {V : Type} (k : string) (d : list (string * V)) : option V :=
  match d with
  | [] => None
  | (k', v) :: d' => if String.eqb k k' then Some v else get k d'
  end.

(** [d.get(k, default)] *)
Definition get_default {V : Type} (k : string) (default : V)
           (d : list (string * V)) : V :=
  match get k d with
  | Some v => v
  | None => default
  end.

(** [k in d.keys()] *)
Definition mem {V : Type} (k : string) (d : list (string * V)) : bool :=
  match get k d with
  | Some _ => true
  | None => false
  end.

(** [d[k] = v]: an existing key keeps its place, a new one goes last. *)
Fixpoint set {V : Type} (k : string) (v : V) (d : list (string * V))
  : list (string * V) :=
  match d with
  | [] => [(k, v)]
  | (k', v') :: d' =>
      if String.eqb k k' then (k', v) :: d' else (k', v') :: set k v d'
  end.

(** [d.pop(k, None)], the popped value dropped. *)
Fixpoint pop {V : Type} (k : string) (d : list (string * V))
  : list (string * V) :=
  match d with
  | [] => []
  | (k', v') :: d' =>
      if String.eqb k k' then pop k d' else (k', v') :: pop k d'
  end.

(** [{**d, **extra}] *)
Definition update {V : Type} (d extra : list (string * V))
  : list (string * V) :=
  fold_left (fun acc kv => set (fst kv) (snd kv) acc) extra d.

(** A dictionary literal or a run of assignments, left to right. *)
Definition of_list {V : Type} (l : list (string * V)) : list (string * V) :=
  update [] l.

Definition keys {V : Type} (d : list (string * V)) : list string :=
  map fst d.

(** Truthiness of a dictionary. *)
Definition truthy {V : Type} (d : list (string * V)) : bool :=
  match d with
  | [] => false
  | _ :: _ => true
  end.

End Dict.

(** ** Strings *)

Module Str.

(** [s.replace(old, new)] for one-character [old] and [new]. *)
Fixpoint replace (old new : ascii) (s : string) : string :=
  match s with
  | EmptyString => EmptyString
  | String c s' =>
      String (if Ascii.eqb c old then new else c) (replace old new s')
  end.

Definition upper_char (c : ascii) : ascii :=
  let n := nat_of_ascii c in
  if andb (Nat.leb 97 n) (Nat.leb n 122) then ascii_of_nat (n - 32) else c.

(** [s.upper()] on ASCII text: the letters a-z become A-Z, every other
    character stays. *)
Fixpoint upper (s : string) : string :=
  match s with
  | EmptyString => EmptyString
  | String c s' => String (upper_char c) (upper s')
  end.

(** [s.isascii()] *)
Fixpoint is_ascii (s : string) : bool :=
  match s with
  | EmptyString => true
  | String c s' => Nat.ltb (nat_of_ascii c) 128 && is_ascii s'
  end.

(** [sub in s] *)
Fixpoint contains (sub s : string) : bool :=
  if String.prefix sub s then true
  else match s with
       | EmptyString => false
       | String _ s' => contains sub s'
       end.

(** The character [c] occurs in [s]. *)
Fixpoint occurs (c : ascii) (s : string) : Prop :=
  match s with
  | EmptyString => False
  | String x s' => x = c \/ occurs c s'
  end.

End Str.

(** ** Exceptions and results *)

Inductive exn : Type :=
| CryptAPIException (payload : Any)
| KeyError (key : string)
| TypeError
| AttributeError
| RuntimeError (msg : string)
| ClientError (reason : string)
| JSONDecodeError.

Inductive result (A : Type) : Type :=
| Ok (a : A)
| Raise (e : exn).

Arguments Ok {A} a.
Arguments Raise {A} e.

Definition is_ok {A : Type} (r : result A) : bool :=
  match r with
  | Ok _ => true
  | Raise _ => false
  end.

(** ** The state-and-error monad *)

Definition M (St A : Type) : Type := St -> St * result A.

Definition ret {St A : Type} (a : A) : M St A := fun s => (s, Ok a).

Definition raise {St A : Type} (e : exn) : M St A := fun s => (s, Raise e).

Definition bind {St A B : Type} (m : M St A) (k : A -> M St B) : M St B :=
  fun s =>
    match m s with
    | (s', Ok a) => k a s'
    | (s', Raise e) => (s', Raise e)
    end.

Definition gets {St A : Type} (f : St -> A) : M St A := fun s => (s, Ok (f s)).

Definition modify {St : Type} (f : St -> St) : M St unit :=
  fun s => (f s, Ok tt).

Definition of_result {St A : Type} (r : result A) : M St A := fun s => (s, r).

(** [try: m finally: cleanup] *)
Definition finally {St A : Type} (m : M St A) (cleanup : M St unit) : M St A :=
  fun s =>
    match m s with
    | (s', r) =>
        match cleanup s' with
        | (s'', Ok _) => (s'', r)
        | (s'', Raise e) => (s'', Raise e)
        end
    end.

(** A [for] loop over [items] whose body may raise. *)
Fixpoint for_each {A St : Type} (body : St -> A -> result St)
         (items : list A) (s : St) : result St :=
  match items with
  | [] => Ok s
  | x :: items' =>
      match body s x with
      | Ok s' => for_each body items' s'
      | Raise e => Raise e
      end
  end.

Declare Scope py_scope.
Delimit Scope py_scope with py.
Notation "x <- m ;; k" := (bind m (fun x => k))
  (at level 61, m at next level, right associativity) : py_scope.
Notation "m ;;; k" := (bind m (fun _ => k))
  (at level 61, right associativity) : py_scope.
Open Scope py_scope.

(** ** The network *)

Record request : Type := mk_request {
  req_url : string;
  req_params : dict;
  req_headers : list (string * string)
}.

(** What comes back for a request: the textual body, or a transport
    failure (connection refused, timeout, ...). *)
Inductive reply : Type :=
| Body (text : string)
| Unreachable (reason : string).

(** The transport is [aiohttp], as far as the helper uses it: sessions are
    numbered as they are allocated, a session takes requests until it is
    closed, and [sent] is the log of the requests handed to the transport,
    oldest first. *)
Record world : Type := mk_world {
  next_session : nat;
  open_sessions : list nat;
  sent : list request
}.

Definition session_is_open (s : nat) (w : world) : bool :=
  existsb (Nat.eqb s) (open_sessions w).

Definition log_request (req : request) (w : world) : world :=
  {| next_session := next_session w;
     open_sessions := open_sessions w;
     sent := sent w ++ [req] |}.

(** [aiohttp.ClientSession(...)] *)
Definition ClientSession : M world nat :=
  fun w =>
    let s := next_session w in
    ({| next_session := S s;
        open_sessions := s :: open_sessions w;
        sent := sent w |}, Ok s).

(** [await session.close()] *)
Definition session_close (s : nat) : M world unit :=
  modify (fun w =>
    {| next_session := next_session w;
       open_sessions := filter (fun t => negb (Nat.eqb s t)) (open_sessions w);
       sent := sent w |}).

(** [async with aiohttp.ClientSession() as session: body] *)
Definition with_ClientSession {A : Type} (body : nat -> M world A) : M world A :=
  session <- ClientSession ;;
  finally (body session) (session_close session).

(** ** The helper *)

Definition CRYPTAPI_URL : string := "https://api.cryptapi.io/".
Definition CRYPTAPI_HOST : string := "api.cryptapi.io".
Definition SUPPORTED_COINS_DISPALY_PAGE : string :=
  "https://cryptapi.io/cryptocurrencies".

(** The instance: [self.coin], [self.owner_address], [self.callback_url],
    [self.payment_address] and [self._aio_session]. *)
Record CryptAPIHelper : Type := mk_helper {
  coin : string;
  owner_address : string;
  callback_url : string;
  payment_address : Any;
  _aio_session : nat
}.

(** Instance methods run on the network and on [self]. *)
Definition heap : Type := (world * CryptAPIHelper)%type.

Definition on_world {A : Type} (m : M world A) : M heap A :=
  fun h =>
    match m (fst h) with
    | (w', r) => ((w', snd h), r)
    end.

Definition self_ {A : Type} (field : CryptAPIHelper -> A) : M heap A :=
  gets (fun h => field (snd h)).

(** [self.payment_address = v] *)
Definition with_payment_address (v : Any) (self : CryptAPIHelper)
  : CryptAPIHelper :=
  {| coin := coin self;
     owner_address := owner_address self;
     callback_url := callback_url self;
     payment_address := v;
     _aio_session := _aio_session self |}.

Definition set_payment_address (v : Any) : M heap unit :=
  modify (fun h : heap => (fst h, with_payment_address v (snd h))).

Section Helper.

(** The remote gateway (it may answer by the history of earlier requests)
    and [ujson.loads], which gives [None] on a malformed body. *)
Variable gateway : list request -> request -> reply.
Variable json_loads : string -> option Any.

(** [str.upper], Python's own uppercasing of a string, Unicode-aware. *)
Variable str_upper : string -> string.

(** [session.get(url=..., params=..., headers=...)] followed by
    [await response.text()].  A closed session refuses the request.  The
    parameter values are taken to be ones the transport writes into a query
    string ([str], [int], [float]); what it does with any other value is
    not modelled. *)
Definition session_get (session : nat) (req : request) : M world string :=
  fun w =>
    if session_is_open session w then
      match gateway (sent w) req with
      | Body text => (log_request req w, Ok text)
      | Unreachable reason => (log_request req w, Raise (ClientError reason))
      end
    else (w, Raise (RuntimeError "Session is closed")).

Definition loads (body : string) : M world Any :=
  match json_loads body with
  | Some v => ret v
  | None => raise JSONDecodeError
  end.

(** The URL [process_request] formats:
    ["{base_url}{coin}{endpoint}/"] with [coin.replace("_", "/")]. *)
Definition request_url (coin endpoint : string) : string :=
  CRYPTAPI_URL ++ Str.replace "_" "/" coin ++ endpoint ++ "/".

Definition process_request (session : nat) (coin : option string)
           (endpoint : string) (params : dict) : M world dict :=
  let coin :=
    if truthy_str coin then option_map (fun c => c ++ "/") coin else coin in
  match coin with
  | None => raise AttributeError
  | Some coin =>
      body <- session_get session
                {| req_url := request_url coin endpoint;
                   req_params := params;
                   req_headers := [("Host", CRYPTAPI_HOST)] |} ;;
      data <- loads body ;;
      match data with
      | VDict data =>
          if eq_str (Dict.get_default "status" (VStr "") data) "error" then
            match Dict.get "error" data with
            | Some message => raise (CryptAPIException message)
            | None => raise (KeyError "error")
            end
          else ret data
      | _ => raise AttributeError
      end
  end.

Definition __init__ (coin owner_address callback_url : option string)
  : M world CryptAPIHelper :=
  match coin with
  | None | Some "" =>
      raise (CryptAPIException
               (VStr "CryptAPIHelper.__init__ Error: Coin is Missing."))
  | Some coin =>
      match owner_address with
      | None | Some "" =>
          raise (CryptAPIException
                   (VStr "CryptAPIHelper.__init__ Error: Owner Address is Missing."))
      | Some owner_address =>
          match callback_url with
          | None | Some "" =>
              raise (CryptAPIException
                       (VStr "CryptAPIHelper.__init__ Error: Callback URL is Missing."))
          | Some callback_url =>
              session <- ClientSession ;;
              ret {| coin := coin;
                     owner_address := owner_address;
                     callback_url := callback_url;
                     payment_address := VStr "";
                     _aio_session := session |}
          end
      end
  end.

Definition close : M heap unit :=
  session <- self_ _aio_session ;;
  on_world (session_close session).

Definition generate_payment_address
           (be_notified_of_pending_transactions : bool)
           (owner_email : option string) (priority : string)
  : M heap (option dict) :=
  let _optional_params : dict := [] in
  let _optional_params :=
    Dict.set "pending"
             (VInt (if be_notified_of_pending_transactions then 1 else 0))
             _optional_params in
  let _optional_params :=
    match owner_email with
    | Some (String c e) => Dict.set "email" (VStr (String c e)) _optional_params
    | _ => _optional_params
    end in
  let _optional_params := Dict.set "post" (VInt 0) _optional_params in
  let _optional_params := Dict.set "json" (VInt 1) _optional_params in
  let _optional_params := Dict.set "priority" (VStr priority) _optional_params in
  let _optional_params := Dict.set "convert" (VInt 0) _optional_params in
  callback <- self_ callback_url ;;
  address <- self_ owner_address ;;
  let _params :=
    Dict.update
      (Dict.of_list [("callback", VStr callback); ("address", VStr address)])
      _optional_params in
  session <- self_ _aio_session ;;
  coin <- self_ coin ;;
  _address <- on_world (process_request session (Some coin) "create" _params) ;;
  if Dict.truthy _address then
    match Dict.get "address_in" _address with
    | Some address_in =>
        set_payment_address address_in ;;;
        ret (Some _address)
    | None => raise (KeyError "address_in")
    end
  else ret (Some _address).

Definition get_payment_logs : M heap dict :=
  callback <- self_ callback_url ;;
  let _params := Dict.of_list [("callback", VStr callback)] in
  session <- self_ _aio_session ;;
  coin <- self_ coin ;;
  on_world (process_request session (Some coin) "logs" _params).

Definition get_qrcode (size : Z) : M heap dict :=
  address <- self_ payment_address ;;
  let _params :=
    Dict.of_list [("address", address); ("value", VStr ""); ("size", VInt size)] in
  session <- self_ _aio_session ;;
  coin <- self_ coin ;;
  on_world (process_request session (Some coin) "qrcode" _params).

Definition get_conversion (from_coin : option string) (value : Z)
  : M heap dict :=
  match from_coin with
  | None | Some "" =>
      raise (CryptAPIException
               (VStr "CryptAPIHelper.get_conversion Error: From Coin is Missing."))
  | Some from_coin =>
      let _params :=
        Dict.of_list [("from", VStr from_coin); ("value", VInt value)] in
      session <- self_ _aio_session ;;
      coin <- self_ coin ;;
      on_world (process_request session (Some coin) "convert" _params)
  end.

Definition get_info : M world dict :=
  with_ClientSession (fun session =>
    process_request session (Some "") "info"
                    (Dict.of_list [("prices", VStr "0")])).

(** The inner loop of [get_supported_coins]: one token of a chain. *)
Definition token_entry (ticker : string) (_coins : dict)
           (item : string * Any) : result dict :=
  let (token, token_info) := item in
  match token_info with
  | VDict token_info =>
      match Dict.get "coin" token_info with
      | Some (VStr name) =>
          Ok (Dict.set (ticker ++ "_" ++ token)
                       (VStr (name ++ " (" ++ str_upper ticker ++ ")"))
                       _coins)
      | Some _ => Raise TypeError
      | None => Raise (KeyError "coin")
      end
  | _ => Raise TypeError
  end.

(** The outer loop: one top-level ticker. *)
Definition ticker_entry (_coins : dict) (item : string * Any) : result dict :=
  let (ticker, coin_info) := item in
  match coin_info with
  | VDict coin_info =>
      match Dict.get "coin" coin_info with
      | Some name => Ok (Dict.set ticker name _coins)
      | None => for_each (token_entry ticker) coin_info _coins
      end
  | _ => Raise AttributeError
  end.

Definition get_supported_coins : M world dict :=
  _info <- get_info ;;
  let _info := Dict.pop "fee_tiers" _info in
  of_result (for_each ticker_entry _info []).

Definition get_coin_info (coin : option string) : M world dict :=
  match coin with
  | None | Some "" =>
      raise (CryptAPIException
               (VStr "CryptAPIHelper.get_coin_info Error: Coin is Missing."))
  | Some coin =>
      with_ClientSession (fun session =>
        process_request session (Some coin) "info"
                        (Dict.of_list [("prices", VStr "0")]))
  end.

Definition get_estimate_fees (coin : option string) (addresses : Z)
           (priority : string) : M world dict :=
  match coin with
  | None | Some "" =>
      raise (CryptAPIException
               (VStr "CryptAPIHelper.get_estimate_fees Error: Coin is Missing."))
  | Some coin =>
      let params :=
        Dict.of_list [("addresses", VInt addresses); ("priority", VStr priority)] in
      with_ClientSession (fun session =>
        process_request session (Some coin) "estimate" params)
  end.

(** *** Callers

    A caller holds one helper and invokes its operations one after the
    other, catching what they raise.  What an operation returns is a
    Python value: the decoded object, or [None]. *)

Inductive operation : Type :=
| GeneratePaymentAddress (be_notified_of_pending_transactions : bool)
                         (owner_email : option string) (priority : string)
| GetPaymentLogs
| GetQrcode (size : Z)
| GetConversion (from_coin : option string) (value : Z)
| Close
| GetInfo
| GetSupportedCoins
| GetCoinInfo (coin : option string)
| GetEstimateFees (coin : option string) (addresses : Z) (priority : string).

Definition returning {St A : Type} (f : A -> Any) (m : M St A) : M St Any :=
  a <- m ;; ret (f a).

Definition of_optional (o : option dict) : Any :=
  match o with
  | Some d => VDict d
  | None => VNone
  end.

Definition call (op : operation) : M heap Any :=
  match op with
  | GeneratePaymentAddress b e p =>
      returning of_optional (generate_payment_address b e p)
  | GetPaymentLogs => returning VDict get_payment_logs
  | GetQrcode size => returning VDict (get_qrcode size)
  | GetConversion from_coin value =>
      returning VDict (get_conversion from_coin value)
  | Close => returning (fun _ => VNone) close
  | GetInfo => returning VDict (on_world get_info)
  | GetSupportedCoins => returning VDict (on_world get_supported_coins)
  | GetCoinInfo coin => returning VDict (on_world (get_coin_info coin))
  | GetEstimateFees coin addresses priority =>
      returning VDict (on_world (get_estimate_fees coin addresses priority))
  end.

(** The heap after a run of operations, whatever each returned or raised. *)
Definition run (ops : list operation) (h : heap) : heap :=
  fold_left (fun h op => fst (call op h)) ops h.

End Helper.

(** Default values of the keyword arguments. *)
Module Defaults.
Definition be_notified_of_pending_transactions : bool := false.
Definition owner_email : option string := None.
Definition priority : string := "default".
Definition size : Z := 512.
Definition value : Z := 10.
Definition addresses : Z := 1.
End Defaults.

(** ** Vocabulary of the statements *)

(** What [process_request] is to make of a decoded body. *)
Definition outcome_of (v : option Any) : result dict :=
  match v with
  | None => Raise JSONDecodeError
  | Some (VDict data) =>
      if eq_str (Dict.get_default "status" (VStr "") data) "error" then
        match Dict.get "error" data with
        | Some message => Raise (CryptAPIException message)
        | None => Raise (KeyError "error")
        end
      else Ok data
  | Some _ => Raise AttributeError
  end.

(** The request an operation is to hand to the transport: the base URL, the
    coin with its underscores turned into slashes and a slash after it (or
    nothing for the empty coin), the endpoint and a slash. *)
Definition the_request (coin endpoint : string) (params : dict) : request :=
  {| req_url :=
       CRYPTAPI_URL
         ++ (if String.eqb coin "" then "" else Str.replace "_" "/" coin ++ "/")
         ++ endpoint ++ "/";
     req_params := params;
     req_headers := [("Host", CRYPTAPI_HOST)] |}.

(** The parameters [generate_payment_address] is to send, in the order the
    keys are set. *)
Definition create_params (self : CryptAPIHelper)
           (be_notified_of_pending_transactions : bool)
           (owner_email : option string) (priority : string) : dict :=
  ([("callback", VStr (callback_url self));
    ("address", VStr (owner_address self));
    ("pending", VInt (if be_notified_of_pending_transactions then 1 else 0))]
   ++ match owner_email with
      | Some (String c e) => [("email", VStr (String c e))]
      | _ => []
      end
   ++ [("post", VInt 0); ("json", VInt 1);
       ("priority", VStr priority); ("convert", VInt 0)])%list.

(** The operation gets as far as its dispatch: its local checks pass and the
    session it sends on is open. *)
Definition dispatches (op : operation) (h : heap) : bool :=
  match op with
  | Close => false
  | GetInfo | GetSupportedCoins => true
  | GetCoinInfo coin | GetEstimateFees coin _ _ => truthy_str coin
  | GetConversion from_coin _ =>
      truthy_str from_coin && session_is_open (_aio_session (snd h)) (fst h)
  | _ => session_is_open (_aio_session (snd h)) (fst h)
  end.

(** The capital of a letter, read off the alphabet; any other character is
    its own. *)
Definition capital (c : ascii) : ascii :=
  match String.index 0 (String c "") "abcdefghijklmnopqrstuvwxyz" with
  | Some k =>
      match String.get k "ABCDEFGHIJKLMNOPQRSTUVWXYZ" with
      | Some C => C
      | None => c
      end
  | None => c
  end.

(** *** The catalogue of supported coins, in the words of its description

    An info payload maps a ticker either to a coin (a mapping with a direct
    [coin] field, the display name) or to a chain (a mapping from tokens to
    coins whose display names are strings); [fee_tiers] stands apart. *)

Definition is_token (item : string * Any) : bool :=
  match snd item with
  | VDict token_info =>
      match Dict.get "coin" token_info with
      | Some (VStr _) => true
      | _ => false
      end
  | _ => false
  end.

Definition is_coin_or_chain (item : string * Any) : bool :=
  match snd item with
  | VDict coin_info => Dict.mem "coin" coin_info || forallb is_token coin_info
  | _ => false
  end.

Definition without_fee_tiers (info : dict) : dict :=
  filter (fun item => negb (String.eqb (fst item) "fee_tiers")) info.

Definition info_payload (info : dict) : bool :=
  forallb is_coin_or_chain (without_fee_tiers info).

(** The entries of one chain: [<ticker>_<token>] with the token's display
    name followed by the uppercased ticker in parentheses. *)
Definition chain_entries (str_upper : string -> string)
           (ticker : string) (tokens : dict) : dict :=
  flat_map
    (fun item =>
       match snd item with
       | VDict token_info =>
           match Dict.get "coin" token_info with
           | Some (VStr name) =>
               [(ticker ++ "_" ++ fst item,
                 VStr (name ++ " (" ++ str_upper ticker ++ ")"))]
           | _ => []
           end
       | _ => []
       end)
    tokens.

(** The entries of the flat mapping, ticker by ticker. *)
Definition supported_entries (str_upper : string -> string) (info : dict)
  : dict :=
  flat_map
    (fun item =>
       match snd item with
       | VDict coin_info =>
           match Dict.get "coin" coin_info with
           | Some name => [(fst item, name)]
           | None => chain_entries str_upper (fst item) coin_info
           end
       | _ => []
       end)
    (without_fee_tiers info).

Definition is_generate (op : operation) : bool :=
  match op with
  | GeneratePaymentAddress _ _ _ => true
  | _ => false
  end.

(** A computation that leaves [self] as it found it, whatever it returns. *)
Definition keeps_self {A : Type} (m : M heap A) : Prop :=
  forall h : heap, snd (fst (m h)) = snd h.


(** *** Sessions, requests and replies *)

(** Every open session was allocated before: its number is below the next
    one to be given out. *)
Definition sessions_numbered (w : world) : bool :=
  forallb (fun s => Nat.ltb s (next_session w)) (open_sessions w).

(** What a dispatch is to make of the transport's answer. *)
Definition outcome_of_reply (json_loads : string -> option Any) (r : reply)
  : result dict :=
  match r with
  | Body text => outcome_of (json_loads text)
  | Unreachable reason => Raise (ClientError reason)
  end.

(** The world after a context-free operation that sent [req]: one more
    session was numbered, and it is closed again. *)
Definition after_own_session (req : request) (w : world) : world :=
  {| next_session := S (next_session w);
     open_sessions :=
       filter (fun t => negb (Nat.eqb (next_session w) t))
              (next_session w :: open_sessions w);
     sent := sent w ++ [req] |}.

Definition is_close (op : operation) : bool :=
  match op with
  | Close => true
  | _ => false
  end.

(** The static methods: they need no helper. *)
Definition is_context_free (op : operation) : bool :=
  match op with
  | GetInfo | GetSupportedCoins | GetCoinInfo _ | GetEstimateFees _ _ _ => true
  | _ => false
  end.

(** The operations of the helper instance that send on its session. *)
Definition uses_own_session (op : operation) : bool :=
  match op with
  | GeneratePaymentAddress _ _ _ | GetPaymentLogs | GetQrcode _ => true
  | GetConversion from_coin _ => truthy_str from_coin
  | _ => false
  end.

(** A request as the helper makes them: to the gateway's base URL, ending
    in a slash, with no underscore anywhere, and the [Host] header pinned. *)
Definition gateway_request (req : request) : bool :=
  String.prefix CRYPTAPI_URL (req_url req)
  && negb (Str.contains "_" (req_url req))
  && match req_headers req with
     | [(name, host)] => String.eqb name "Host" && String.eqb host CRYPTAPI_HOST
     | _ => false
     end.

(** The last value assigned to [key] in a run of assignments. *)
Definition last_assigned (key : string) (entries : dict) : option Any :=
  Dict.get key (rev entries).

(** ** A sample gateway

    Bodies are named by what they decode to; the gateway answers every
    request with the body it is given. *)

Module Sample.

Definition error_reply : dict :=
  [("status", VStr "error"); ("error", VStr "bad address")].

Definition created_reply : dict :=
  [("address_in", VStr "X"); ("priority", VStr "default");
   ("status", VStr "success")].

Definition info_reply : dict :=
  [("btc", VDict [("coin", VStr "Bitcoin")]);
   ("trc20", VDict [("usdt", VDict [("coin", VStr "Tether")])]);
   ("fee_tiers", VList [])].

Definition bodies : dict :=
  [("error", VDict error_reply);
   ("error without message", VDict [("status", VStr "error")]);
   ("created", VDict created_reply);
   ("success without address", VDict [("status", VStr "success")]);
   ("info", VDict info_reply)].

Definition json_loads (text : string) : option Any := Dict.get text bodies.

Definition gateway (text : string) : list request -> request -> reply :=
  fun _ _ => Body text.

(** A helper for "polygon_usdt" as [__init__] makes it on a fresh network. *)
Definition w0 : world := mk_world 0 [] [].
Definition w1 : world := mk_world 1 [0] [].
Definition self : CryptAPIHelper :=
  mk_helper "polygon_usdt" "0xOwner" "https://example.com/callback"
            (VStr "") 0.

End Sample.

(** Further cases: a payload that carries a [status] of its own, a gateway
    that cannot be reached, and a second helper beside the first. *)

Module Cases.

Definition info_with_status : dict :=
  [("btc", VDict [("coin", VStr "Bitcoin")]);
   ("status", VStr "success")].

Definition bodies : dict :=
  [("info with status", VDict info_with_status);
   ("empty", VDict [])].

Definition json_loads (text : string) : option Any := Dict.get text bodies.

Definition unreachable (reason : string) : list request -> request -> reply :=
  fun _ _ => Unreachable reason.

Definition w2 : world := mk_world 2 [1; 0] [].
Definition second : CryptAPIHelper :=
  mk_helper "btc" "1Owner" "https://example.com/btc" (VStr "") 1.

End Cases.

(** * Properties *)

(** ** Strings *)

Section StringFacts.

Lemma append_assoc (a b c : string) : (a ++ b) ++ c = a ++ (b ++ c).
Proof. induction a as [|x a IH]; simpl; [reflexivity | now rewrite IH]. Qed.

Lemma replace_append old new (a b : string) :
  Str.replace old new (a ++ b) = Str.replace old new a ++ Str.replace old new b.
Proof. induction a as [|x a IH]; simpl; [reflexivity | now rewrite IH]. Qed.

Lemma replace_get old new (s : string) (i : nat) :
  String.get i (Str.replace old new s) =
  option_map (fun c => if Ascii.eqb c old then new else c) (String.get i s).
Proof.
  revert i; induction s as [|x s IH]; intros i; simpl; [reflexivity|].
  destruct i as [|i]; simpl; [reflexivity | apply IH].
Qed.

Lemma occurs_append c (a b : string) :
  Str.occurs c (a ++ b) <-> Str.occurs c a \/ Str.occurs c b.
Proof. induction a as [|x a IH]; simpl; tauto. Qed.

Lemma prefix_occurs c (sub s : string) :
  String.prefix sub s = true -> Str.occurs c sub -> Str.occurs c s.
Proof.
  revert s; induction sub as [|x sub IH]; intros s Hp Ho; simpl in Ho; [tauto|].
  destruct s as [|y s]; simpl in Hp; [discriminate Hp|].
  destruct (ascii_dec x y) as [->|]; [|discriminate Hp].
  simpl; destruct Ho as [Ho|Ho]; [now left | right; now apply IH].
Qed.

Lemma contains_occurs c (sub s : string) :
  Str.contains sub s = true -> Str.occurs c sub -> Str.occurs c s.
Proof.
  induction s as [|y s IH]; intros Hc Ho.
  - apply (prefix_occurs c sub ""); [|exact Ho].
    destruct sub; [reflexivity | discriminate Hc].
  - destruct (String.prefix sub (String y s)) eqn:Hp.
    + now apply (prefix_occurs c sub (String y s)).
    + right; apply IH; [|exact Ho].
      cbn [Str.contains] in Hc; now rewrite Hp in Hc.
Qed.

Lemma contains_char_occurs c (s : string) :
  Str.contains (String c "") s = false -> ~ Str.occurs c s.
Proof.
  induction s as [|y s IH]; [simpl; tauto|].
  cbn [Str.contains String.prefix Str.occurs].
  destruct (ascii_dec c y) as [->|Hn].
  - intros Hc; destruct s; discriminate Hc.
  - intros Hc [Hy|Ho]; [congruence | now apply IH].
Qed.

Lemma contains_unfold (sub s : string) :
  Str.contains sub s =
  if String.prefix sub s then true
  else match s with
       | EmptyString => false
       | String _ s' => Str.contains sub s'
       end.
Proof. destruct s; reflexivity. Qed.

Lemma prefix_append (sub post : string) : String.prefix sub (sub ++ post) = true.
Proof.
  induction sub as [|x sub IH]; simpl; [now destruct post|].
  destruct (ascii_dec x x); [exact IH | congruence].
Qed.

Lemma contains_middle (pre sub post : string) :
  Str.contains sub (pre ++ sub ++ post) = true.
Proof.
  induction pre as [|x pre IH]; rewrite contains_unfold.
  - simpl; now rewrite prefix_append.
  - change (String x pre ++ sub ++ post) with (String x (pre ++ sub ++ post)).
    cbv iota; rewrite IH; now destruct (String.prefix _ _).
Qed.

Lemma upper_char_capital (c : ascii) : Str.upper_char c = capital c.
Proof.
  destruct c as [b0 b1 b2 b3 b4 b5 b6 b7].
  destruct b0, b1, b2, b3, b4, b5, b6, b7; reflexivity.
Qed.

Lemma upper_length (s : string) : String.length (Str.upper s) = String.length s.
Proof. induction s as [|c s IH]; simpl; congruence. Qed.

Lemma upper_get (s : string) (i : nat) :
  String.get i (Str.upper s) = option_map capital (String.get i s).
Proof.
  revert i; induction s as [|c s IH]; intros i; [reflexivity|].
  cbn [Str.upper]; destruct i as [|i]; cbn [String.get option_map].
  - now rewrite upper_char_capital.
  - apply IH.
Qed.

End StringFacts.

(** ** Request dispatch *)

Section Dispatch.

Variable gateway : list request -> request -> reply.
Variable json_loads : string -> option Any.

Lemma process_request_open session coin endpoint params w :
  session_is_open session w = true ->
  process_request gateway json_loads session (Some coin) endpoint params w =
  let req := the_request coin endpoint params in
  (log_request req w,
   match gateway (sent w) req with
   | Body text => outcome_of (json_loads text)
   | Unreachable reason => Raise (ClientError reason)
   end).
Proof.
  intros Hopen.
  assert (Hurl : request_url (match coin with "" => "" | _ => coin ++ "/" end) endpoint
                 = req_url (the_request coin endpoint params)).
  { unfold request_url, the_request; cbn [req_url].
    destruct coin as [|c coin]; [reflexivity|].
    cbn [String.eqb]; now rewrite replace_append. }
  unfold process_request, bind, session_get, loads, ret, raise.
  set (req := the_request coin endpoint params) in *.
  destruct coin as [|c coin]; cbn [truthy_str option_map];
    rewrite Hurl, Hopen; cbv zeta;
    change (mk_request (req_url req) params [("Host", CRYPTAPI_HOST)]) with req.
  all: destruct (gateway _ _) as [text|reason]; [|reflexivity].
  all: unfold outcome_of; destruct (json_loads text) as [[| | | | | |data]|];
    try reflexivity.
  all: destruct (eq_str _ _); [destruct (Dict.get "error" data)|]; reflexivity.
Qed.

Lemma process_request_closed session coin endpoint params w :
  session_is_open session w = false ->
  process_request gateway json_loads session (Some coin) endpoint params w =
  (w, Raise (RuntimeError "Session is closed")).
Proof.
  intros Hclosed.
  unfold process_request, bind, session_get.
  destruct coin; cbn [truthy_str option_map]; now rewrite Hclosed.
Qed.

(** C1: with an open session, [process_request] sends exactly one request,
    to the base URL followed by the coin with every underscore turned into a
    slash and a slash after it, then the endpoint and a slash; for the empty
    coin nothing stands between the base URL and the endpoint.  For the coin
    "polygon_usdt" the URL carries the segment "polygon/usdt/", and as long
    as the endpoint name has no underscore of its own it nowhere carries
    "polygon_usdt/". *)
Theorem process_request_url :
  forall session (coin endpoint : string) (params : dict) (w : world),
    session_is_open session w = true ->
    let segment :=
      match coin with
      | "" => ""
      | _ => Str.replace "_" "/" coin ++ "/"
      end in
    let url := "https://api.cryptapi.io/" ++ segment ++ endpoint ++ "/" in
    sent (fst (process_request gateway json_loads session (Some coin)
                               endpoint params w))
    = (sent w ++ [ {| req_url := url;
                      req_params := params;
                      req_headers := [("Host", "api.cryptapi.io")] |} ])%list
    /\ String.length (Str.replace "_" "/" coin) = String.length coin
    /\ (forall i : nat,
           String.get i (Str.replace "_" "/" coin)
           = option_map (fun c => if Ascii.eqb c "_" then "/"%char else c)
                        (String.get i coin))
    /\ (coin = "" -> url = "https://api.cryptapi.io/" ++ endpoint ++ "/")
    /\ (coin = "polygon_usdt" ->
        url = "https://api.cryptapi.io/polygon/usdt/" ++ endpoint ++ "/"
        /\ Str.contains "polygon/usdt/" url = true
        /\ (Str.contains "_" endpoint = false ->
            Str.contains "polygon_usdt/" url = false)).
Proof.
  intros session coin endpoint params w Hopen segment url.
  repeat split.
  - rewrite (process_request_open _ _ _ _ _ Hopen); cbn [fst log_request sent].
    unfold the_request, url, segment, CRYPTAPI_URL, CRYPTAPI_HOST.
    destruct coin; reflexivity.
  - clear; induction coin as [|c coin IH]; simpl; congruence.
  - intros i; apply replace_get.
  - intros ->; reflexivity.
  - subst url segment; rewrite H; reflexivity.
  - subst url segment; rewrite H.
    exact (contains_middle "https://api.cryptapi.io/" "polygon/usdt/"
                           (endpoint ++ "/")).
  - intros Hend.
    destruct (Str.contains "polygon_usdt/" url) eqn:Hc; [exfalso|reflexivity].
    apply (contains_occurs "_"%char) in Hc; [|simpl; tauto].
    subst url segment; rewrite H in Hc.
    apply contains_char_occurs in Hend.
    cbn in Hc.
    repeat (destruct Hc as [Hc|Hc]; [discriminate Hc|]).
    apply occurs_append in Hc; destruct Hc as [Hc|Hc]; [tauto|].
    simpl in Hc; destruct Hc as [Hc|[]]; discriminate Hc.
Qed.

Lemma outcome_error data message :
  Dict.get "status" data = Some (VStr "error") ->
  Dict.get "error" data = Some message ->
  outcome_of (Some (VDict data)) = Raise (CryptAPIException message).
Proof.
  intros Hs He; unfold outcome_of, Dict.get_default.
  now rewrite Hs, He.
Qed.

Lemma outcome_error_missing data :
  Dict.get "status" data = Some (VStr "error") ->
  Dict.get "error" data = None ->
  outcome_of (Some (VDict data)) = Raise (KeyError "error").
Proof.
  intros Hs He; unfold outcome_of, Dict.get_default.
  now rewrite Hs, He.
Qed.

Lemma outcome_pass data :
  Dict.get "status" data <> Some (VStr "error") ->
  outcome_of (Some (VDict data)) = Ok data.
Proof.
  intros Hs; unfold outcome_of, Dict.get_default.
  destruct (Dict.get "status" data) as [v|]; [|reflexivity].
  destruct v as [| | | |s| |]; try reflexivity.
  cbn [eq_str]; destruct (String.eqb_spec s "error") as [->|]; [|reflexivity].
  now elim Hs.
Qed.

Lemma process_request_reply session coin endpoint params w text :
  session_is_open session w = true ->
  gateway (sent w) (the_request coin endpoint params) = Body text ->
  process_request gateway json_loads session (Some coin) endpoint params w =
  (log_request (the_request coin endpoint params) w,
   outcome_of (json_loads text)).
Proof.
  intros Hopen Hreply.
  rewrite (process_request_open _ _ _ _ _ Hopen); cbv zeta.
  now rewrite Hreply.
Qed.

Lemma fresh_session_open w :
  session_is_open (next_session w) (fst (ClientSession w)) = true.
Proof.
  unfold session_is_open; cbn.
  now rewrite Nat.eqb_refl.
Qed.

(** A context-free operation: a session of its own, one dispatch, and the
    session closed again whatever came of it. *)
Lemma with_session_dispatch coin endpoint params w text :
  gateway (sent w) (the_request coin endpoint params) = Body text ->
  with_ClientSession
    (fun session =>
       process_request gateway json_loads session (Some coin) endpoint params) w
  = ({| next_session := S (next_session w);
        open_sessions :=
          filter (fun t => negb (Nat.eqb (next_session w) t))
                 (next_session w :: open_sessions w);
        sent := sent w ++ [the_request coin endpoint params] |},
     outcome_of (json_loads text)).
Proof.
  intros Hreply.
  unfold with_ClientSession, bind, finally.
  cbn [ClientSession].
  pose proof (fresh_session_open w) as Hopen; cbn [ClientSession fst] in Hopen.
  rewrite (process_request_reply _ _ _ _ _ text Hopen); [|exact Hreply].
  reflexivity.
Qed.



(** [generate_payment_address] around its dispatch. *)
Lemma generate_payment_address_unfold b e p w c :
  generate_payment_address gateway json_loads b e p (w, c) =
  match process_request gateway json_loads (_aio_session c) (Some (coin c))
                        "create" (create_params c b e p) w with
  | (w', Raise ex) => ((w', c), Raise ex)
  | (w', Ok []) => ((w', c), Ok (Some []))
  | (w', Ok data) =>
      match Dict.get "address_in" data with
      | Some address_in =>
          ((w', with_payment_address address_in c), Ok (Some data))
      | None => ((w', c), Raise (KeyError "address_in"))
      end
  end.
Proof.
  assert (Hparams :
    Dict.update
      (Dict.of_list [("callback", VStr (callback_url c));
                     ("address", VStr (owner_address c))])
      (Dict.set "convert" (VInt 0)
         (Dict.set "priority" (VStr p)
            (Dict.set "json" (VInt 1)
               (Dict.set "post" (VInt 0)
                  match e with
                  | Some (String c0 e0) =>
                      Dict.set "email" (VStr (String c0 e0))
                        (Dict.set "pending" (VInt (if b then 1 else 0)) [])
                  | _ => Dict.set "pending" (VInt (if b then 1 else 0)) []
                  end))))
    = create_params c b e p).
  { unfold create_params; destruct e as [[|c0 e0]|]; reflexivity. }
  unfold generate_payment_address, bind, self_, gets, on_world, ret;
    cbn [fst snd].
  rewrite Hparams.
  destruct (process_request _ _ _ _ _ _ w) as [w' [data|ex]]; [|reflexivity].
  destruct data as [|kv data]; [reflexivity|].
  cbn [Dict.truthy].
  destruct (Dict.get "address_in" (kv :: data)); reflexivity.
Qed.

(** C10: on an object whose [status] is "error", [process_request] reads
    the [error] key without looking whether it is there: with the key the
    [CryptAPIException] carries exactly its value, without it the lookup
    fails with a [KeyError] and no [CryptAPIException] is raised. *)
Theorem error_key_read_unconditionally :
  forall session coin endpoint params w (text : string) (data : dict),
    session_is_open session w = true ->
    gateway (sent w) (the_request coin endpoint params) = Body text ->
    json_loads text = Some (VDict data) ->
    Dict.get "status" data = Some (VStr "error") ->
    let r := snd (process_request gateway json_loads session (Some coin)
                                  endpoint params w) in
    (forall message,
        Dict.get "error" data = Some message ->
        r = Raise (CryptAPIException message))
    /\ (Dict.get "error" data = None ->
        r = Raise (KeyError "error")
        /\ forall message, r <> Raise (CryptAPIException message)).
Proof.
  intros session coin endpoint params w text data Hopen Hreply Hjson Hs r.
  subst r.
  rewrite (process_request_reply _ _ _ _ _ _ Hopen Hreply), Hjson.
  cbn [snd]; split.
  - intros message He; now apply outcome_error.
  - intros He; rewrite (outcome_error_missing _ Hs He).
    split; [reflexivity | intros message; discriminate].
Qed.

(** ** Address generation *)

(** C3: with an open session, [generate_payment_address] sends one request
    to the endpoint "create" whose parameters are exactly [callback],
    [address], [pending] (1 or 0), [email] (only for a non-empty e-mail),
    [post] = 0, [json] = 1, [priority] and [convert] = 0, the priority
    being "default" when the caller gives none; and on a decoded object
    that is not an error and has [address_in] = X, the helper's
    [payment_address] becomes X and the whole object is returned. *)
Theorem generate_payment_address_create :
  forall (be_notified_of_pending_transactions : bool)
         (owner_email : option string) (priority : string)
         (w : world) (self : CryptAPIHelper),
    session_is_open (_aio_session self) w = true ->
    let params :=
      ([("callback", VStr (callback_url self));
        ("address", VStr (owner_address self));
        ("pending",
         VInt (if be_notified_of_pending_transactions then 1 else 0))]
       ++ match owner_email with
          | None | Some "" => []
          | Some email => [("email", VStr email)]
          end
       ++ [("post", VInt 0); ("json", VInt 1);
           ("priority", VStr priority); ("convert", VInt 0)])%list in
    let req := the_request (coin self) "create" params in
    let after :=
      generate_payment_address gateway json_loads
        be_notified_of_pending_transactions owner_email priority (w, self) in
    sent (fst (fst after)) = (sent w ++ [req])%list
    /\ Defaults.priority = "default"
    /\ (forall (text : string) (data : dict) (X : Any),
           gateway (sent w) req = Body text ->
           json_loads text = Some (VDict data) ->
           Dict.get "status" data <> Some (VStr "error") ->
           Dict.get "address_in" data = Some X ->
           payment_address (snd (fst after)) = X
           /\ after = ((log_request req w, with_payment_address X self),
                       Ok (Some data))).
Proof.
  intros b e p w c Hopen params req after.
  assert (Hparams : create_params c b e p = params).
  { unfold create_params, params; destruct e as [[|c0 e0]|]; reflexivity. }
  subst after; rewrite generate_payment_address_unfold, Hparams.
  rewrite (process_request_open _ _ _ _ _ Hopen); cbv zeta; fold req.
  repeat split.
  - destruct (gateway _ _) as [text|reason]; [|reflexivity].
    destruct (outcome_of _) as [[|kv data]|ex]; try reflexivity.
    destruct (Dict.get _ _); reflexivity.
  - rewrite H, H0, (outcome_pass _ H1).
    destruct data as [|kv data]; [discriminate H2|].
    now rewrite H2.
  - rewrite H, H0, (outcome_pass _ H1).
    destruct data as [|kv data]; [discriminate H2|].
    now rewrite H2.
Qed.

(** C4: a call of [generate_payment_address] that fails, because the
    request raised or because the decoded object has no [address_in],
    leaves the helper as it was, [payment_address] included.  When the
    request raised, the call raises that same exception; it never returns
    [None]. *)
Theorem generate_payment_address_failure :
  forall (be_notified_of_pending_transactions : bool)
         (owner_email : option string) (priority : string)
         (w : world) (self : CryptAPIHelper),
    let after :=
      generate_payment_address gateway json_loads
        be_notified_of_pending_transactions owner_email priority (w, self) in
    let dispatched :=
      process_request gateway json_loads (_aio_session self)
        (Some (coin self)) "create"
        (create_params self be_notified_of_pending_transactions
                       owner_email priority) w in
    (forall ex, snd dispatched = Raise ex ->
                after = ((fst dispatched, self), Raise ex))
    /\ (forall ex, snd after = Raise ex ->
                   payment_address (snd (fst after)) = payment_address self)
    /\ (forall data, snd after = Ok (Some data) ->
                     Dict.get "address_in" data = None ->
                     payment_address (snd (fst after)) = payment_address self)
    /\ snd after <> Ok None.
Proof.
  intros b e p w c after dispatched; subst after dispatched.
  rewrite generate_payment_address_unfold.
  destruct (process_request _ _ _ _ _ _ w) as [w' [data|ex]]; cbn [fst snd].
  - destruct data as [|kv data]; cbn [fst snd].
    + repeat split; try reflexivity; discriminate.
    + destruct (Dict.get "address_in" (kv :: data)) eqn:Hin; cbn [fst snd].
      * repeat split; try discriminate.
        intros data' [= <-]; congruence.
      * repeat split; try reflexivity; discriminate.
  - repeat split; try reflexivity; try discriminate.
    now intros ex' [= ->].
Qed.

(** ** Local checks *)

(** C5: constructing a helper with the coin, the owner address or the
    callback URL empty or absent raises the error named after the first
    one missing, in the order coin, owner address, callback URL, and
    leaves the network as it was: no session has been allocated and
    nothing was sent. *)
Theorem init_missing_argument :
  forall (coin owner_address callback_url : option string) (w : world),
    let made := __init__ coin owner_address callback_url w in
    (truthy_str coin = false ->
     made = (w, Raise (CryptAPIException
               (VStr "CryptAPIHelper.__init__ Error: Coin is Missing."))))
    /\ (truthy_str coin = true ->
        truthy_str owner_address = false ->
        made = (w, Raise (CryptAPIException
                  (VStr "CryptAPIHelper.__init__ Error: Owner Address is Missing."))))
    /\ (truthy_str coin = true ->
        truthy_str owner_address = true ->
        truthy_str callback_url = false ->
        made = (w, Raise (CryptAPIException
                  (VStr "CryptAPIHelper.__init__ Error: Callback URL is Missing."))))
    /\ (is_ok (snd made) = false ->
        next_session (fst made) = next_session w
        /\ open_sessions (fst made) = open_sessions w
        /\ sent (fst made) = sent w)
    /\ Str.contains "Coin is Missing"
         "CryptAPIHelper.__init__ Error: Coin is Missing." = true
    /\ Str.contains "Owner Address is Missing"
         "CryptAPIHelper.__init__ Error: Owner Address is Missing." = true
    /\ Str.contains "Callback URL is Missing"
         "CryptAPIHelper.__init__ Error: Callback URL is Missing." = true.
Proof.
  intros coin owner callback w made; subst made.
  unfold __init__.
  destruct coin as [[|c0 coin]|], owner as [[|o0 owner]|],
           callback as [[|u0 callback]|];
    cbn [truthy_str];
    repeat split; try reflexivity; try discriminate.
Qed.

(** C7: [get_conversion] without a source coin raises "From Coin is
    Missing", and [get_coin_info] and [get_estimate_fees] without a coin
    raise "Coin is Missing"; in each case the state is what it was before
    the call: no request was sent and no session opened. *)
Theorem missing_coin_raises_before_dispatch :
  forall (h : heap) (w : world) (value addresses : Z) (priority : string)
         (coin : option string),
    truthy_str coin = false ->
    get_conversion gateway json_loads coin value h
    = (h, Raise (CryptAPIException
            (VStr "CryptAPIHelper.get_conversion Error: From Coin is Missing.")))
    /\ get_coin_info gateway json_loads coin w
       = (w, Raise (CryptAPIException
               (VStr "CryptAPIHelper.get_coin_info Error: Coin is Missing.")))
    /\ get_estimate_fees gateway json_loads coin addresses priority w
       = (w, Raise (CryptAPIException
               (VStr "CryptAPIHelper.get_estimate_fees Error: Coin is Missing.")))
    /\ Str.contains "From Coin is Missing"
         "CryptAPIHelper.get_conversion Error: From Coin is Missing." = true
    /\ Str.contains "Coin is Missing"
         "CryptAPIHelper.get_coin_info Error: Coin is Missing." = true
    /\ Str.contains "Coin is Missing"
         "CryptAPIHelper.get_estimate_fees Error: Coin is Missing." = true.
Proof.
  intros h w value addresses priority coin Hcoin.
  destruct coin as [[|c0 coin]|]; try discriminate Hcoin;
    repeat split; reflexivity.
Qed.

(** From here on [get_supported_coins] is among the operations, and with
    it Python's [str.upper]. *)
Variable str_upper : string -> string.

(** ** The helper's fields *)

Lemma keeps_ret {A} (a : A) : keeps_self (ret a).
Proof. intros h; reflexivity. Qed.

Lemma keeps_raise {A} (e : exn) : keeps_self (@raise heap A e).
Proof. intros h; reflexivity. Qed.

Lemma keeps_self_ {A} (field : CryptAPIHelper -> A) : keeps_self (self_ field).
Proof. intros h; reflexivity. Qed.

Lemma keeps_on_world {A} (m : M world A) : keeps_self (on_world m).
Proof. intros h; unfold on_world; now destruct (m (fst h)). Qed.

Lemma keeps_bind {A B} (m : M heap A) (k : A -> M heap B) :
  keeps_self m -> (forall a, keeps_self (k a)) -> keeps_self (bind m k).
Proof.
  intros Hm Hk h; unfold bind.
  specialize (Hm h); destruct (m h) as [h' [a|e]]; cbn [fst snd] in *.
  - now rewrite Hk.
  - exact Hm.
Qed.

Create HintDb keeps discriminated.
Hint Resolve keeps_ret keeps_raise keeps_self_ keeps_on_world keeps_bind
  : keeps.

Lemma call_keeps_self op :
  is_generate op = false -> keeps_self (call gateway json_loads str_upper op).
Proof.
  destruct op as [b e p| |size|from value| | | |coin|coin n p];
    intros Hgen; try discriminate Hgen; cbn [call];
    unfold returning, get_payment_logs, get_qrcode, get_conversion, close;
    try (destruct from as [[|f0 from]|]);
    auto 10 with keeps.
Qed.

Lemma generate_self b e p h :
  let self' :=
    snd (fst (call gateway json_loads str_upper (GeneratePaymentAddress b e p)
        h)) in
  self' = snd h \/ exists X, self' = with_payment_address X (snd h).
Proof.
  destruct h as [w c]; cbn [call]; unfold returning, bind.
  rewrite generate_payment_address_unfold.
  destruct (process_request _ _ _ _ _ _ w) as [w' [[|kv data]|ex]];
    cbn [fst snd]; try (now left).
  destruct (Dict.get "address_in" (kv :: data)) as [X|]; cbn [fst snd];
    [right; now exists X | now left].
Qed.

Lemma call_fields op h :
  let self' := snd (fst (call gateway json_loads str_upper op h)) in
  coin self' = coin (snd h)
  /\ owner_address self' = owner_address (snd h)
  /\ callback_url self' = callback_url (snd h)
  /\ _aio_session self' = _aio_session (snd h).
Proof.
  destruct (is_generate op) eqn:Hgen.
  - destruct op; try discriminate Hgen.
    destruct (generate_self be_notified_of_pending_transactions owner_email
                            priority h) as [H|[X H]];
      cbv zeta in *; rewrite H; repeat split.
  - cbv zeta; now rewrite (call_keeps_self op Hgen h).
Qed.

Lemma run_keeps_self ops h :
  forallb (fun op => negb (is_generate op)) ops = true ->
  snd (run gateway json_loads str_upper ops h) = snd h.
Proof.
  revert h; induction ops as [|op ops IH]; intros h Hall; [reflexivity|].
  cbn [forallb] in Hall; apply andb_prop in Hall; destruct Hall as [Hop Hall].
  cbn [run fold_left]; unfold run in IH; rewrite (IH _ Hall).
  apply negb_true_iff in Hop.
  now rewrite (call_keeps_self op Hop h).
Qed.

Lemma init_ok coin0 owner_address0 callback_url0 w0 w self :
  __init__ coin0 owner_address0 callback_url0 w0 = (w, Ok self) ->
  coin0 = Some (coin self)
  /\ owner_address0 = Some (owner_address self)
  /\ callback_url0 = Some (callback_url self)
  /\ payment_address self = VStr ""
  /\ session_is_open (_aio_session self) w = true.
Proof.
  intros Hinit; unfold __init__ in Hinit.
  destruct coin0 as [[|c0 coin0]|]; try discriminate Hinit.
  destruct owner_address0 as [[|o0 owner0]|]; try discriminate Hinit.
  destruct callback_url0 as [[|u0 callback0]|]; try discriminate Hinit.
  injection Hinit as <- <-; repeat split.
  unfold session_is_open; cbn; now rewrite Nat.eqb_refl.
Qed.

(** C8: over any run of operations on a helper the coin, the owner address
    and the callback URL stay what they were, and they are what [__init__]
    was given; [payment_address] is the empty string on a new helper, and
    no operation other than [generate_payment_address] changes it. *)
Theorem fields_fixed_after_init :
  forall (ops : list operation) (h : heap),
    let self' := snd (run gateway json_loads str_upper ops h) in
    (coin self' = coin (snd h)
     /\ owner_address self' = owner_address (snd h)
     /\ callback_url self' = callback_url (snd h))
    /\ (forallb (fun op => negb (is_generate op)) ops = true ->
        payment_address self' = payment_address (snd h))
    /\ (forall op, is_generate op = false ->
                   snd (fst (call gateway json_loads str_upper op h)) = snd h)
    /\ (forall coin0 owner_address0 callback_url0 w0,
           __init__ coin0 owner_address0 callback_url0 w0 = (fst h, Ok (snd h)) ->
           coin0 = Some (coin (snd h))
           /\ owner_address0 = Some (owner_address (snd h))
           /\ callback_url0 = Some (callback_url (snd h))
           /\ payment_address (snd h) = VStr "").
Proof.
  intros ops h self'; subst self'.
  split; [|split; [|split]].
  - revert h; induction ops as [|op ops IH]; intros h; [now repeat split|].
    cbn [run fold_left].
    destruct (IH (fst (call gateway json_loads str_upper op h))) as (Hc & Ho &
        Hu).
    destruct (call_fields op h) as (Hc' & Ho' & Hu' & _).
    unfold run in *; cbv zeta in *.
    rewrite Hc, Ho, Hu; now repeat split.
  - intros Hall; now rewrite (run_keeps_self ops h Hall).
  - intros op Hop; apply (call_keeps_self op Hop h).
  - intros coin0 owner0 callback0 w0 Hinit.
    apply init_ok in Hinit; tauto.
Qed.

(** ** The QR code *)

(** C9: for every size, [get_qrcode] on an open session sends one request
    to the endpoint "qrcode" with exactly the parameters [address] = the
    helper's current [payment_address], [value] = "" and [size] = the size
    given, and returns what the dispatch returns: nothing is checked
    locally, whatever the size.  On a helper that has run no
    [generate_payment_address] since [__init__] made it, the address sent
    is the empty string. *)
Theorem get_qrcode_forwards :
  forall (size : Z) (w : world) (self : CryptAPIHelper),
    session_is_open (_aio_session self) w = true ->
    let params (address : Any) : dict :=
      [("address", address); ("value", VStr ""); ("size", VInt size)] in
    let req := the_request (coin self) "qrcode"
                           (params (payment_address self)) in
    let dispatched :=
      process_request gateway json_loads (_aio_session self)
                      (Some (coin self)) "qrcode"
                      (params (payment_address self)) w in
    get_qrcode gateway json_loads size (w, self)
    = ((fst dispatched, self), snd dispatched)
    /\ sent (fst dispatched) = (sent w ++ [req])%list
    /\ (forall coin owner_address callback_url w0 made ops,
           __init__ coin owner_address callback_url w0 = (fst made, Ok (snd made)) ->
           forallb (fun op => negb (is_generate op)) ops = true ->
           run gateway json_loads str_upper ops made = (w, self) ->
           req_params req = params (VStr "")).
Proof.
  intros size w c Hopen params req dispatched.
  split; [|split].
  - unfold get_qrcode, bind, self_, gets, on_world; cbn [fst snd].
    subst dispatched; now destruct (process_request _ _ _ _ _ _ w).
  - subst dispatched; now rewrite (process_request_open _ _ _ _ _ Hopen).
  - intros coin0 owner callback w0 made ops Hinit Hops Hrun.
    apply init_ok in Hinit; destruct Hinit as (_ & _ & _ & Hempty & _).
    pose proof (run_keeps_self ops made Hops) as Hkept.
    rewrite Hrun in Hkept; cbn [snd] in Hkept.
    subst req; cbn [the_request req_params]; now rewrite Hkept, Hempty.
Qed.

(** ** Supported coins *)

Lemma pop_filter {V} (k : string) (d : list (string * V)) :
  Dict.pop k d = filter (fun item => negb (String.eqb (fst item) k)) d.
Proof.
  induction d as [|[k' v] d IH]; [reflexivity|]; cbn [Dict.pop filter fst].
  rewrite (String.eqb_sym k' k).
  destruct (String.eqb k k'); cbn [negb]; now rewrite IH.
Qed.

Lemma get_In {V} (k : string) (v : V) (d : list (string * V)) :
  Dict.get k d = Some v -> In (k, v) d.
Proof.
  induction d as [|[k' v'] d IH]; cbn [Dict.get]; [discriminate|].
  destruct (String.eqb_spec k k') as [->|Hne].
  - intros [= ->]; now left.
  - intros Hget; right; now apply IH.
Qed.

Lemma update_app {V} (d a b : list (string * V)) :
  Dict.update d (a ++ b) = Dict.update (Dict.update d a) b.
Proof. unfold Dict.update; apply fold_left_app. Qed.

Lemma set_fresh {V} (k : string) (v : V) (d : list (string * V)) :
  ~ In k (Dict.keys d) -> Dict.set k v d = (d ++ [(k, v)])%list.
Proof.
  induction d as [|[k' v'] d IH]; cbn [Dict.set Dict.keys map fst In app];
    [reflexivity|].
  intros Hfresh.
  destruct (String.eqb_spec k k') as [->|Hne]; [tauto|].
  rewrite IH; [reflexivity | tauto].
Qed.

Lemma update_fresh {V} (d l : list (string * V)) :
  NoDup (Dict.keys (d ++ l)) -> Dict.update d l = (d ++ l)%list.
Proof.
  revert d; induction l as [|[k v] l IH]; intros d Hnd.
  - now rewrite app_nil_r.
  - change (Dict.update d ((k, v) :: l)) with (Dict.update (Dict.set k v d) l).
    assert (Hfresh : ~ In k (Dict.keys d)).
    { unfold Dict.keys in *; rewrite map_app in Hnd.
      apply NoDup_remove_2 in Hnd; rewrite in_app_iff in Hnd; tauto. }
    rewrite (set_fresh k v d Hfresh), IH, <- app_assoc; [reflexivity|].
    now rewrite <- app_assoc.
Qed.

(** The inner loop adds the entries of the chain, in order. *)
Lemma chain_loop ticker tokens _coins :
  forallb is_token tokens = true ->
  for_each (token_entry str_upper ticker) tokens _coins =
  Ok (Dict.update _coins (chain_entries str_upper ticker tokens)).
Proof.
  revert _coins; induction tokens as [|[token token_info] tokens IH];
    intros _coins Hshape; [reflexivity|].
  cbn [forallb] in Hshape; apply andb_prop in Hshape.
  destruct Hshape as [Htoken Hshape].
  unfold is_token in Htoken; cbn [snd] in Htoken.
  cbn [for_each token_entry chain_entries flat_map snd fst].
  destruct token_info as [| | | | | |token_info]; try discriminate Htoken.
  destruct (Dict.get "coin" token_info) as [[| | | |name| |]|];
    try discriminate Htoken.
  rewrite (IH _ Hshape); reflexivity.
Qed.

(** The outer loop adds the entries of each ticker, in order. *)
Lemma ticker_loop items _coins :
  forallb is_coin_or_chain items = true ->
  for_each (ticker_entry str_upper) items _coins =
  Ok (Dict.update _coins
        (flat_map
           (fun item =>
              match snd item with
              | VDict coin_info =>
                  match Dict.get "coin" coin_info with
                  | Some name => [(fst item, name)]
                  | None => chain_entries str_upper (fst item) coin_info
                  end
              | _ => []
              end) items)).
Proof.
  revert _coins; induction items as [|[ticker coin_info] items IH];
    intros _coins Hshape; [reflexivity|].
  cbn [forallb] in Hshape; apply andb_prop in Hshape.
  destruct Hshape as [Hitem Hshape].
  unfold is_coin_or_chain, Dict.mem in Hitem; cbn [snd] in Hitem.
  cbn [for_each ticker_entry flat_map snd fst].
  destruct coin_info as [| | | | | |coin_info]; try discriminate Hitem.
  rewrite update_app.
  destruct (Dict.get "coin" coin_info) as [name|].
  - now rewrite (IH _ Hshape).
  - cbn [orb] in Hitem; rewrite (chain_loop _ _ _ Hitem).
    now rewrite (IH _ Hshape).
Qed.

Lemma info_payload_no_error info :
  info_payload info = true ->
  Dict.get "status" info <> Some (VStr "error").
Proof.
  intros Hshape Hstatus.
  apply get_In in Hstatus.
  unfold info_payload in Hshape; rewrite forallb_forall in Hshape.
  specialize (Hshape ("status", VStr "error")).
  discriminate Hshape.
  unfold without_fee_tiers; apply filter_In; now split.
Qed.

Lemma get_unique {V} (k : string) (v : V) (d : list (string * V)) :
  NoDup (Dict.keys d) -> In (k, v) d -> Dict.get k d = Some v.
Proof.
  induction d as [|[k' v'] d IH]; cbn [Dict.keys map fst Dict.get In];
    [tauto|].
  intros Hnd [[= -> ->]|Hin].
  - now rewrite String.eqb_refl.
  - destruct (String.eqb_spec k k') as [->|Hne].
    + apply NoDup_cons_iff in Hnd; destruct Hnd as [Hfresh _].
      elim Hfresh; apply (in_map fst _ _ Hin).
    + apply IH; [now apply NoDup_cons_iff in Hnd | exact Hin].
Qed.

Lemma get_supported_coins_run w text info :
  gateway (sent w) (the_request "" "info" [("prices", VStr "0")]) = Body text ->
  json_loads text = Some (VDict info) ->
  info_payload info = true ->
  snd (get_supported_coins gateway json_loads str_upper w)
  = Ok (Dict.of_list (supported_entries str_upper info)).
Proof.
  intros Hreply Hjson Hshape.
  unfold get_supported_coins, get_info, bind.
  change (Dict.of_list [("prices", VStr "0")]) with [("prices", VStr "0")].
  rewrite (with_session_dispatch _ _ _ _ _ Hreply), Hjson.
  rewrite (outcome_pass _ (info_payload_no_error _ Hshape)).
  unfold of_result; cbn [snd].
  rewrite pop_filter; fold (without_fee_tiers info).
  now rewrite (ticker_loop _ _ Hshape).
Qed.

(** C6: on an info payload [get_supported_coins] returns the mapping that
    the entries of the payload make, taken in order without [fee_tiers]:
    a ticker with a direct [coin] field gives that display name, a chain
    gives [<ticker>_<token>] with the token's display name and the
    uppercased ticker in parentheses.  The uppercased ticker is what
    [str.upper] makes of it: for an ASCII ticker, the same characters with
    each letter a-z replaced by its capital.  When no two entries share a
    key the mapping is those entries, each key with its display name; on
    the payload with "btc", the chain "trc20" and [fee_tiers] it is exactly
    "btc" -> "Bitcoin", "trc20_usdt" -> "Tether (TRC20)". *)
Theorem get_supported_coins_flattens :
  forall (w : world) (text : string) (info : dict),
    (forall s, Str.is_ascii s = true -> str_upper s = Str.upper s) ->
    gateway (sent w) (the_request "" "info" [("prices", VStr "0")]) = Body text ->
    json_loads text = Some (VDict info) ->
    info_payload info = true ->
    let returned := snd (get_supported_coins gateway json_loads str_upper w) in
    returned = Ok (Dict.of_list (supported_entries str_upper info))
    /\ (NoDup (Dict.keys (supported_entries str_upper info)) ->
        returned = Ok (supported_entries str_upper info)
        /\ forall key name d,
             returned = Ok d ->
             In (key, name) (supported_entries str_upper info) ->
             Dict.get key d = Some name)
    /\ (forall ticker,
           Str.is_ascii ticker = true ->
           String.length (str_upper ticker) = String.length ticker
           /\ forall i,
                String.get i (str_upper ticker)
                = option_map capital (String.get i ticker))
    /\ (forall ticker (tokens token_info : dict) token name,
           In (ticker, VDict tokens) (without_fee_tiers info) ->
           Dict.get "coin" tokens = None ->
           In (token, VDict token_info) tokens ->
           Dict.get "coin" token_info = Some (VStr name) ->
           In (ticker ++ "_" ++ token,
               VStr (name ++ " (" ++ str_upper ticker ++ ")"))
              (supported_entries str_upper info))
    /\ (forall fee_tiers,
           info = [("btc", VDict [("coin", VStr "Bitcoin")]);
                   ("trc20", VDict [("usdt", VDict [("coin", VStr "Tether")])]);
                   ("fee_tiers", fee_tiers)] ->
           returned = Ok [("btc", VStr "Bitcoin");
                          ("trc20_usdt", VStr "Tether (TRC20)")]).
Proof.
  intros w text info Hupper Hreply Hjson Hshape returned; subst returned.
  rewrite (get_supported_coins_run _ _ _ Hreply Hjson Hshape).
  split; [reflexivity | split; [|split; [|split]]].
  - intros Hnd.
    assert (Heq : Dict.of_list (supported_entries str_upper info)
                  = supported_entries str_upper info).
    { unfold Dict.of_list; now rewrite update_fresh. }
    rewrite Heq; split; [reflexivity|].
    intros key name d [= <-] Hin; now apply get_unique.
  - intros ticker Hascii; rewrite (Hupper _ Hascii).
    split; [apply upper_length | intros i; apply upper_get].
  - intros ticker tokens token_info token name Hticker Hcoin Htoken Hname.
    unfold supported_entries; apply in_flat_map.
    exists (ticker, VDict tokens); split; [exact Hticker|].
    cbn [snd fst]; rewrite Hcoin.
    unfold chain_entries; apply in_flat_map.
    exists (token, VDict token_info); split; [exact Htoken|].
    cbn [snd fst]; rewrite Hname; now left.
  - intros fee_tiers ->.
    unfold supported_entries, without_fee_tiers, chain_entries, Dict.of_list.
    cbn; now rewrite (Hupper "trc20" eq_refl).
Qed.

(** ** Every operation *)




End Dispatch.

(** * Concrete runs *)

Lemma process_request_url_witness :
  session_is_open 0 Sample.w1 = true
  /\ sent (fst (process_request (Sample.gateway "error") Sample.json_loads 0
                                (Some "polygon_usdt") "create" [] Sample.w1))
     = [ {| req_url := "https://api.cryptapi.io/polygon/usdt/create/";
            req_params := [];
            req_headers := [("Host", "api.cryptapi.io")] |} ]
  /\ Str.contains "polygon_usdt/" "https://api.cryptapi.io/polygon/usdt/create/"
     = false.
Proof.
  split; [reflexivity|].
  destruct (process_request_url (Sample.gateway "error") Sample.json_loads 0
              "polygon_usdt" "create" [] Sample.w1 eq_refl)
    as (Hsent & _ & _ & _ & Hpolygon).
  split; [exact Hsent|].
  destruct (Hpolygon eq_refl) as (_ & _ & Hnever).
  exact (Hnever eq_refl).
Defined.



Lemma error_key_read_unconditionally_witness :
  session_is_open 0 Sample.w1 = true
  /\ Sample.json_loads "error without message"
     = Some (VDict [("status", VStr "error")])
  /\ snd (process_request (Sample.gateway "error without message")
                          Sample.json_loads 0 (Some "btc") "logs" [] Sample.w1)
     = Raise (KeyError "error").
Proof.
  split; [reflexivity|]; split; [reflexivity|].
  destruct (error_key_read_unconditionally
              (Sample.gateway "error without message") Sample.json_loads
              0 "btc" "logs" [] Sample.w1 "error without message"
              [("status", VStr "error")] eq_refl eq_refl eq_refl eq_refl)
    as [_ Hmissing].
  exact (proj1 (Hmissing eq_refl)).
Defined.

Lemma generate_payment_address_create_witness :
  session_is_open (_aio_session Sample.self) Sample.w1 = true
  /\ Sample.json_loads "created" = Some (VDict Sample.created_reply)
  /\ generate_payment_address (Sample.gateway "created") Sample.json_loads
       true (Some "owner@example.com") "fast" (Sample.w1, Sample.self)
     = ((log_request
           (the_request "polygon_usdt" "create"
              [("callback", VStr "https://example.com/callback");
               ("address", VStr "0xOwner");
               ("pending", VInt 1);
               ("email", VStr "owner@example.com");
               ("post", VInt 0); ("json", VInt 1);
               ("priority", VStr "fast"); ("convert", VInt 0)])
           Sample.w1,
         with_payment_address (VStr "X") Sample.self),
        Ok (Some Sample.created_reply)).
Proof.
  split; [reflexivity|]; split; [reflexivity|].
  destruct (generate_payment_address_create (Sample.gateway "created")
              Sample.json_loads true (Some "owner@example.com") "fast"
              Sample.w1 Sample.self eq_refl)
    as (_ & _ & Hsuccess).
  refine (proj2 (Hsuccess "created" Sample.created_reply (VStr "X")
                          eq_refl eq_refl _ eq_refl)).
  discriminate.
Defined.

Lemma generate_payment_address_failure_witness :
  snd (process_request (Sample.gateway "error") Sample.json_loads
         (_aio_session Sample.self) (Some (coin Sample.self)) "create"
         (create_params Sample.self false None "default") Sample.w1)
  = Raise (CryptAPIException (VStr "bad address"))
  /\ snd (fst (generate_payment_address (Sample.gateway "error")
                 Sample.json_loads false None "default"
                 (Sample.w1, Sample.self)))
     = Sample.self
  /\ snd (generate_payment_address (Sample.gateway "error")
            Sample.json_loads false None "default" (Sample.w1, Sample.self))
     = Raise (CryptAPIException (VStr "bad address")).
Proof.
  split; [reflexivity|].
  destruct (generate_payment_address_failure (Sample.gateway "error")
              Sample.json_loads false None "default" Sample.w1 Sample.self)
    as (Hraised & _).
  specialize (Hraised (CryptAPIException (VStr "bad address")) eq_refl).
  split; [exact (f_equal (fun r => snd (fst r)) Hraised)
         | exact (f_equal snd Hraised)].
Defined.

(** The request raised, and the call raised with it instead of returning
    [None]. *)
Lemma generate_payment_address_raises_not_none :
  let after :=
    generate_payment_address (Sample.gateway "error") Sample.json_loads
      false None "default" (Sample.w1, Sample.self) in
  snd (process_request (Sample.gateway "error") Sample.json_loads
         (_aio_session Sample.self) (Some (coin Sample.self)) "create"
         (create_params Sample.self false None "default") Sample.w1)
  = Raise (CryptAPIException (VStr "bad address"))
  /\ snd after = Raise (CryptAPIException (VStr "bad address"))
  /\ snd after <> Ok None.
Proof.
  repeat split; discriminate.
Qed.

Lemma init_missing_argument_witness :
  truthy_str (Some "btc") = true
  /\ truthy_str (Some "") = false
  /\ __init__ (Some "btc") (Some "") None Sample.w0
     = (Sample.w0,
        Raise (CryptAPIException
                 (VStr "CryptAPIHelper.__init__ Error: Owner Address is Missing."))).
Proof.
  split; [reflexivity|]; split; [reflexivity|].
  destruct (init_missing_argument (Some "btc") (Some "") None Sample.w0)
    as (_ & Howner & _).
  exact (Howner eq_refl eq_refl).
Defined.

Lemma get_supported_coins_flattens_witness :
  (forall s, Str.is_ascii s = true -> Str.upper s = Str.upper s)
  /\ Sample.json_loads "info" = Some (VDict Sample.info_reply)
  /\ info_payload Sample.info_reply = true
  /\ snd (get_supported_coins (Sample.gateway "info") Sample.json_loads
                              Str.upper Sample.w0)
     = Ok [("btc", VStr "Bitcoin"); ("trc20_usdt", VStr "Tether (TRC20)")]
  /\ String.get 0 (Str.upper "trc20") = Some "T"%char.
Proof.
  split; [reflexivity|]; split; [reflexivity|]; split; [reflexivity|].
  destruct (get_supported_coins_flattens (Sample.gateway "info")
              Sample.json_loads Str.upper Sample.w0 "info" Sample.info_reply
              (fun s _ => eq_refl) eq_refl eq_refl eq_refl)
    as (_ & _ & Hupper & _ & Hsynthetic).
  split; [exact (Hsynthetic (VList []) eq_refl)|].
  exact (proj2 (Hupper "trc20" eq_refl) 0).
Defined.

Lemma missing_coin_raises_before_dispatch_witness :
  truthy_str None = false
  /\ get_conversion (Sample.gateway "created") Sample.json_loads None 10
                    (Sample.w1, Sample.self)
     = ((Sample.w1, Sample.self),
        Raise (CryptAPIException
                 (VStr "CryptAPIHelper.get_conversion Error: From Coin is Missing."))).
Proof.
  split; [reflexivity|].
  exact (proj1 (missing_coin_raises_before_dispatch (Sample.gateway "created")
                  Sample.json_loads (Sample.w1, Sample.self) Sample.w1
                  10%Z 1%Z "default" None eq_refl)).
Defined.

Lemma fields_fixed_after_init_witness :
  let ops := [GetQrcode 512; GetPaymentLogs; GetConversion (Some "usd") 10;
              Close; GetInfo] in
  forallb (fun op => negb (is_generate op)) ops = true
  /\ __init__ (Some "polygon_usdt") (Some "0xOwner")
              (Some "https://example.com/callback") Sample.w0
     = (Sample.w1, Ok Sample.self)
  /\ payment_address
       (snd (run (Sample.gateway "created") Sample.json_loads Str.upper ops
                 (Sample.w1, Sample.self)))
     = VStr "".
Proof.
  intros ops.
  split; [reflexivity|]; split; [reflexivity|].
  destruct (fields_fixed_after_init (Sample.gateway "created") Sample.json_loads
      Str.upper ops (Sample.w1, Sample.self))
    as (_ & Hkept & _ & Hinit).
  destruct (Hinit (Some "polygon_usdt") (Some "0xOwner")
                  (Some "https://example.com/callback") Sample.w0 eq_refl)
    as (_ & _ & _ & Hempty).
  exact (eq_trans (Hkept eq_refl) Hempty).
Defined.

Lemma get_qrcode_forwards_witness :
  let made := (Sample.w1, Sample.self) in
  let after :=
    run (Sample.gateway "created") Sample.json_loads Str.upper [GetPaymentLogs]
        made in
  session_is_open (_aio_session (snd after)) (fst after) = true
  /\ __init__ (Some "polygon_usdt") (Some "0xOwner")
              (Some "https://example.com/callback") Sample.w0
     = (fst made, Ok (snd made))
  /\ get_qrcode (Sample.gateway "created") Sample.json_loads 4096 after
     = ((log_request
           (the_request "polygon_usdt" "qrcode"
              [("address", VStr ""); ("value", VStr ""); ("size", VInt 4096)])
           (fst after),
         snd after),
        Ok Sample.created_reply)
  /\ req_params
       (the_request "polygon_usdt" "qrcode"
          [("address", payment_address (snd after)); ("value", VStr "");
           ("size", VInt 4096)])
     = [("address", VStr ""); ("value", VStr ""); ("size", VInt 4096)].
Proof.
  intros made after.
  split; [reflexivity|]; split; [reflexivity|].
  destruct (get_qrcode_forwards (Sample.gateway "created") Sample.json_loads
      Str.upper
              4096%Z (fst after) (snd after) eq_refl)
    as (Hforward & _ & Hfresh).
  pose proof (Hfresh (Some "polygon_usdt") (Some "0xOwner")
                     (Some "https://example.com/callback") Sample.w0 made
                     [GetPaymentLogs] eq_refl eq_refl eq_refl) as Hparams.
  split; [exact Hforward | exact Hparams].
Defined.

(** * Further properties of the helper *)

(** ** Strings, lists and dictionaries *)

Lemma not_occurs_contains c (s : string) :
  ~ Str.occurs c s -> Str.contains (String c "") s = false.
Proof.
  induction s as [|y s IH]; [reflexivity|].
  cbn [Str.contains String.prefix Str.occurs]; intros Hno.
  destruct (ascii_dec c y) as [->|Hne]; [tauto|].
  apply IH; tauto.
Qed.

Lemma replace_removes old new (s : string) :
  old <> new -> ~ Str.occurs old (Str.replace old new s).
Proof.
  intros Hne; induction s as [|y s IH]; cbn [Str.replace Str.occurs]; [tauto|].
  intros [Hy|Hs]; [|tauto].
  destruct (Ascii.eqb_spec y old) as [->|Hyo]; congruence.
Qed.

Lemma the_request_gateway coin endpoint params :
  Str.contains "_" endpoint = false ->
  gateway_request (the_request coin endpoint params) = true.
Proof.
  intros Hend; apply contains_char_occurs in Hend.
  unfold gateway_request, the_request; cbn [req_url req_headers].
  rewrite prefix_append, not_occurs_contains; [reflexivity|].
  intros Hocc.
  apply occurs_append in Hocc; destruct Hocc as [Hocc|Hocc].
  { cbn in Hocc; repeat (destruct Hocc as [Hocc|Hocc]; [discriminate Hocc|]).
    exact Hocc. }
  apply occurs_append in Hocc; destruct Hocc as [Hocc|Hocc].
  { destruct (String.eqb coin ""); [exact Hocc|].
    apply occurs_append in Hocc; destruct Hocc as [Hocc|Hocc].
    - revert Hocc; apply replace_removes; discriminate.
    - cbn in Hocc; destruct Hocc as [Hocc|[]]; discriminate Hocc. }
  apply occurs_append in Hocc; destruct Hocc as [Hocc|Hocc]; [tauto|].
  cbn in Hocc; destruct Hocc as [Hocc|[]]; discriminate Hocc.
Qed.

Lemma filter_fresh n (l : list nat) :
  forallb (fun s => Nat.ltb s n) l = true ->
  filter (fun t => negb (Nat.eqb n t)) l = l.
Proof.
  induction l as [|s l IH]; [reflexivity|]; cbn [forallb filter].
  intros Hall; apply andb_prop in Hall; destruct Hall as [Hs Hall].
  apply Nat.ltb_lt in Hs.
  destruct (Nat.eqb_spec n s) as [->|_]; [lia|].
  cbn [negb]; now rewrite IH.
Qed.

Lemma after_own_session_open req w :
  sessions_numbered w = true ->
  open_sessions (after_own_session req w) = open_sessions w.
Proof.
  intros Hnum; unfold after_own_session; cbn [open_sessions filter].
  rewrite Nat.eqb_refl; cbn [negb].
  now apply filter_fresh.
Qed.

Lemma numbered_weaken n m (l l' : list nat) :
  n <= m -> incl l' l ->
  forallb (fun s => Nat.ltb s n) l = true ->
  forallb (fun s => Nat.ltb s m) l' = true.
Proof.
  intros Hle Hincl Hall; rewrite forallb_forall in *.
  intros s Hs; specialize (Hall s (Hincl s Hs)).
  apply Nat.ltb_lt in Hall; apply Nat.ltb_lt; lia.
Qed.

Lemma open_after_close n s (l : list nat) :
  existsb (Nat.eqb s) (filter (fun t => negb (Nat.eqb n t)) l)
  = if Nat.eqb s n then false else existsb (Nat.eqb s) l.
Proof.
  induction l as [|t l IH]; cbn [filter existsb]; [now destruct (Nat.eqb s n)|].
  destruct (Nat.eqb_spec n t) as [->|Hnt]; cbn [negb existsb]; rewrite IH.
  - destruct (Nat.eqb_spec s t); reflexivity.
  - destruct (Nat.eqb_spec s n) as [->|Hsn]; [|reflexivity].
    destruct (Nat.eqb_spec n t); [tauto | reflexivity].
Qed.

Lemma filter_twice {A} (f : A -> bool) (l : list A) :
  filter f (filter f l) = filter f l.
Proof.
  induction l as [|t l IH]; [reflexivity|]; cbn [filter].
  destruct (f t) eqn:Hf; [|exact IH].
  cbn [filter]; now rewrite Hf, IH.
Qed.

Lemma chain_loop_ok str_upper ticker tokens _coins :
  is_ok (for_each (token_entry str_upper ticker) tokens _coins) = forallb is_token tokens.
Proof.
  revert _coins; induction tokens as [|[token token_info] tokens IH];
    intros _coins; [reflexivity|].
  cbn [for_each token_entry forallb]; unfold is_token at 1; cbn [snd].
  destruct token_info as [| | | | | |token_info]; try reflexivity.
  destruct (Dict.get "coin" token_info) as [[| | | |name| |]|]; try reflexivity.
  cbn [andb]; apply IH.
Qed.

Lemma ticker_loop_ok str_upper items _coins :
  is_ok (for_each (ticker_entry str_upper) items _coins) = forallb is_coin_or_chain items.
Proof.
  revert _coins; induction items as [|[ticker coin_info] items IH];
    intros _coins; [reflexivity|].
  cbn [for_each ticker_entry forallb].
  unfold is_coin_or_chain at 1, Dict.mem; cbn [snd].
  destruct coin_info as [| | | | | |coin_info]; try reflexivity.
  destruct (Dict.get "coin" coin_info) as [name|]; cbn [orb andb].
  - apply IH.
  - pose proof (chain_loop_ok str_upper ticker coin_info _coins) as Hchain.
    destruct (for_each (token_entry str_upper ticker) coin_info _coins) as [_coins'|ex];
      cbn [is_ok] in Hchain; rewrite <- Hchain; [apply IH | reflexivity].
Qed.

Lemma for_each_app {A St} (body : St -> A -> result St) (l l' : list A) s :
  for_each body (l ++ l') s
  = match for_each body l s with
    | Ok s' => for_each body l' s'
    | Raise ex => Raise ex
    end.
Proof.
  revert s; induction l as [|x l IH]; intros s; [reflexivity|].
  cbn [app for_each]; destruct (body s x); [apply IH | reflexivity].
Qed.

Lemma get_set {V} (k k' : string) (v : V) (d : list (string * V)) :
  Dict.get k (Dict.set k' v d)
  = if String.eqb k k' then Some v else Dict.get k d.
Proof.
  induction d as [|[k0 v0] d IH]; cbn [Dict.set Dict.get]; [reflexivity|].
  destruct (String.eqb_spec k' k0) as [->|Hne]; cbn [Dict.get].
  - now destruct (String.eqb k k0).
  - rewrite IH.
    destruct (String.eqb_spec k k0) as [->|_]; [|reflexivity].
    destruct (String.eqb_spec k0 k'); [congruence | reflexivity].
Qed.

Lemma get_app {V} (k : string) (d d' : list (string * V)) :
  Dict.get k (d ++ d')
  = match Dict.get k d with
    | Some v => Some v
    | None => Dict.get k d'
    end.
Proof.
  induction d as [|[k0 v0] d IH]; cbn [app Dict.get]; [reflexivity|].
  now destruct (String.eqb k k0).
Qed.

Lemma get_update {V} (k : string) (d l : list (string * V)) :
  Dict.get k (Dict.update d l)
  = match Dict.get k (rev l) with
    | Some v => Some v
    | None => Dict.get k d
    end.
Proof.
  revert d; induction l as [|[k' v'] l IH]; intros d; [reflexivity|].
  change (Dict.update d ((k', v') :: l)) with (Dict.update (Dict.set k' v' d) l).
  rewrite IH, get_set; cbn [rev]; rewrite get_app; cbn [Dict.get].
  destruct (Dict.get k (rev l)); [reflexivity|].
  now destruct (String.eqb k k').
Qed.

Lemma set_keys_NoDup {V} (k : string) (v : V) (d : list (string * V)) :
  NoDup (Dict.keys d) -> NoDup (Dict.keys (Dict.set k v d))
  /\ forall x, In x (Dict.keys (Dict.set k v d)) -> x = k \/ In x (Dict.keys d).
Proof.
  induction d as [|[k0 v0] d IH]; cbn [Dict.set Dict.keys map fst].
  - intros _; split; [|cbn; intros x [->|[]]; now left].
    apply NoDup_cons; [cbn; tauto | apply NoDup_nil].
  - intros Hnd; apply NoDup_cons_iff in Hnd; destruct Hnd as [Hfresh Hnd].
    destruct (String.eqb_spec k k0) as [->|Hne]; cbn [map fst].
    + split; [now apply NoDup_cons | cbn; tauto].
    + destruct (IH Hnd) as [Hnd' Hin]; fold (Dict.keys d) in *.
      fold (Dict.keys (Dict.set k v d)) in *.
      split.
      * apply NoDup_cons; [|exact Hnd'].
        intros Hx; destruct (Hin _ Hx); [congruence | tauto].
      * intros x [->|Hx]; [right; now left|].
        destruct (Hin _ Hx); [now left | right; now right].
Qed.

Lemma update_keys_NoDup {V} (d l : list (string * V)) :
  NoDup (Dict.keys d) -> NoDup (Dict.keys (Dict.update d l)).
Proof.
  revert d; induction l as [|[k v] l IH]; intros d Hnd; [exact Hnd|].
  change (Dict.update d ((k, v) :: l)) with (Dict.update (Dict.set k v d) l).
  apply IH; now apply set_keys_NoDup.
Qed.

Lemma replace_twice old new (s : string) :
  old <> new ->
  Str.replace old new (Str.replace old new s) = Str.replace old new s.
Proof.
  intros Hne; induction s as [|c s IH]; [reflexivity|]; cbn [Str.replace].
  rewrite IH; f_equal.
  destruct (Ascii.eqb_spec c old) as [->|Hc].
  - destruct (Ascii.eqb_spec new old); congruence.
  - destruct (Ascii.eqb_spec c old); [tauto | reflexivity].
Qed.

(** ** Construction and release *)

(** X18: [__init__] succeeds exactly when the coin, the owner address and
    the callback URL are all non-empty strings; the helper it returns holds
    the three as given, an empty [payment_address], and the session
    allocated for it. *)
Theorem init_succeeds_iff :
  forall coin0 owner_address0 callback_url0 w,
    let made := __init__ coin0 owner_address0 callback_url0 w in
    is_ok (snd made)
    = truthy_str coin0 && truthy_str owner_address0 && truthy_str callback_url0
    /\ forall self,
         snd made = Ok self ->
         Some (coin self) = coin0
         /\ Some (owner_address self) = owner_address0
         /\ Some (callback_url self) = callback_url0
         /\ payment_address self = VStr ""
         /\ _aio_session self = next_session w
         /\ next_session (fst made) = S (next_session w).
Proof.
  intros coin0 owner0 callback0 w made; subst made; unfold __init__.
  destruct coin0 as [[|c0 coin0]|], owner0 as [[|o0 owner0]|],
           callback0 as [[|u0 callback0]|];
    cbn [truthy_str andb]; (split; [reflexivity|]);
    intros self Hself; try discriminate Hself.
  injection Hself as <-; now repeat split.
Qed.

(** X5: a helper's session is its own.  On a world whose sessions are
    numbered, a successful [__init__] allocates one session that was not open
    before and is open afterwards, leaves every other session as it was
    and sends nothing. *)
Theorem init_opens_fresh_session :
  forall coin0 owner_address0 callback_url0 w w' self,
    sessions_numbered w = true ->
    __init__ coin0 owner_address0 callback_url0 w = (w', Ok self) ->
    session_is_open (_aio_session self) w = false
    /\ session_is_open (_aio_session self) w' = true
    /\ (forall s, s <> _aio_session self ->
                  session_is_open s w' = session_is_open s w)
    /\ sent w' = sent w
    /\ sessions_numbered w' = true.
Proof.
  intros coin0 owner0 callback0 w w' self Hnum Hinit.
  unfold __init__ in Hinit.
  destruct coin0 as [[|c0 coin0]|]; try discriminate Hinit.
  destruct owner0 as [[|o0 owner0]|]; try discriminate Hinit.
  destruct callback0 as [[|u0 callback0]|]; try discriminate Hinit.
  injection Hinit as <- <-; cbn [_aio_session].
  unfold session_is_open, sessions_numbered in *;
    cbn [next_session open_sessions sent existsb forallb].
  rewrite Nat.eqb_refl; cbn [orb].
  repeat split.
  - destruct (existsb _ (open_sessions w)) eqn:Hex; [|reflexivity].
    apply existsb_exists in Hex; destruct Hex as (s & Hs & Heq).
    apply Nat.eqb_eq in Heq; subst s.
    rewrite forallb_forall in Hnum; specialize (Hnum _ Hs).
    apply Nat.ltb_lt in Hnum; lia.
  - intros s Hs; destruct (Nat.eqb_spec s (next_session w)); [tauto|reflexivity].
  - assert (Hself : Nat.ltb (next_session w) (S (next_session w)) = true)
      by (apply Nat.ltb_lt; lia).
    rewrite Hself; cbn [andb].
    apply (numbered_weaken (next_session w) _ (open_sessions w));
      [lia | apply incl_refl | exact Hnum].
Qed.

(** X6: [close] never raises and never sends.  It closes the helper's own
    session and no other, leaves the helper's fields as they were, and a
    second [close] changes nothing more. *)
Theorem close_releases_own_session :
  forall h : heap,
    let closed := fst (close h) in
    snd (close h) = Ok tt
    /\ sent (fst closed) = sent (fst h)
    /\ snd closed = snd h
    /\ session_is_open (_aio_session (snd h)) (fst closed) = false
    /\ (forall s, s <> _aio_session (snd h) ->
                  session_is_open s (fst closed) = session_is_open s (fst h))
    /\ fst (close closed) = closed.
Proof.
  intros [w c] closed; subst closed.
  unfold close, bind, self_, gets, on_world, session_close, modify;
    cbn [fst snd].
  unfold session_is_open; cbn [open_sessions sent next_session].
  repeat split.
  - rewrite open_after_close; now rewrite Nat.eqb_refl.
  - intros s Hs; rewrite open_after_close.
    destruct (Nat.eqb_spec s (_aio_session c)); [tauto | reflexivity].
  - now rewrite filter_twice.
Qed.

Section Coverage.

Variable gateway : list request -> request -> reply.
Variable json_loads : string -> option Any.
Variable str_upper : string -> string.

(** ** The dispatch, whatever comes back *)

Lemma process_request_run session coin endpoint params w :
  process_request gateway json_loads session (Some coin) endpoint params w =
  if session_is_open session w then
    (log_request (the_request coin endpoint params) w,
     outcome_of_reply json_loads
       (gateway (sent w) (the_request coin endpoint params)))
  else (w, Raise (RuntimeError "Session is closed")).
Proof.
  destruct (session_is_open session w) eqn:Hopen.
  - rewrite (process_request_open _ _ _ _ _ _ _ Hopen); cbv zeta.
    unfold outcome_of_reply; now destruct (gateway _ _).
  - now apply process_request_closed.
Qed.

(** X1: the ways a dispatch fails besides an error status.  Without a coin
    ([None], the default of the argument) it raises [AttributeError] and
    sends nothing.  With an open session the request goes out once, and a
    transport failure, a body that is not JSON and a JSON value that is not
    an object each raise: [ClientError], [JSONDecodeError] and
    [AttributeError]. *)
Theorem process_request_failures :
  forall session (coin : string) endpoint params w,
    session_is_open session w = true ->
    let req := the_request coin endpoint params in
    let dispatched :=
      process_request gateway json_loads session (Some coin) endpoint params w in
    process_request gateway json_loads session None endpoint params w
    = (w, Raise AttributeError)
    /\ fst dispatched = log_request req w
    /\ (forall reason,
           gateway (sent w) req = Unreachable reason ->
           snd dispatched = Raise (ClientError reason))
    /\ (forall text,
           gateway (sent w) req = Body text ->
           json_loads text = None ->
           snd dispatched = Raise JSONDecodeError)
    /\ (forall text v,
           gateway (sent w) req = Body text ->
           json_loads text = Some v ->
           (forall data, v <> VDict data) ->
           snd dispatched = Raise AttributeError).
Proof.
  intros session coin endpoint params w Hopen req dispatched.
  subst dispatched; rewrite process_request_run, Hopen; fold req; cbn [fst snd].
  split; [reflexivity | split; [reflexivity|]].
  split; [|split].
  - intros reason ->; reflexivity.
  - intros text -> Hjson; cbn [outcome_of_reply]; now rewrite Hjson.
  - intros text v -> Hjson Hshape; cbn [outcome_of_reply]; rewrite Hjson.
    destruct v; try reflexivity; now elim (Hshape d).
Qed.

(** A context-free operation: a session of its own, one dispatch, and the
    session closed again whatever came of it. *)
Lemma with_session_run coin endpoint params w :
  with_ClientSession
    (fun session =>
       process_request gateway json_loads session (Some coin) endpoint params) w
  = (after_own_session (the_request coin endpoint params) w,
     outcome_of_reply json_loads
       (gateway (sent w) (the_request coin endpoint params))).
Proof.
  unfold with_ClientSession, bind, finally; cbn [ClientSession].
  rewrite process_request_run.
  pose proof (fresh_session_open w) as Hopen; cbn [ClientSession fst] in Hopen.
  now rewrite Hopen.
Qed.

Ltac step_instance :=
  unfold returning, bind, self_, gets, on_world, ret; cbn [fst snd];
  rewrite process_request_run.

Ltac step_static :=
  unfold returning, bind, on_world, ret; cbn [fst snd];
  rewrite with_session_run.

(** X2: no operation swallows or rewrites a failure of its dispatch.  When
    the operation reaches its dispatch and the gateway's answer makes the
    dispatch raise, the operation raises that same exception, and the
    helper is left as it was. *)
Theorem call_surfaces_dispatch_failure :
  forall op h (answer : reply) (ex : exn),
    dispatches op h = true ->
    (forall req, gateway (sent (fst h)) req = answer) ->
    outcome_of_reply json_loads answer = Raise ex ->
    snd (call gateway json_loads str_upper op h) = Raise ex
    /\ snd (fst (call gateway json_loads str_upper op h)) = snd h.
Proof.
  intros op h answer ex Hd Hreply Hout.
  destruct h as [w c]; cbn [fst snd] in *.
  destruct op as [b e p| |size|from value| | | |coin|coin n p];
    cbn [dispatches fst snd] in Hd; try discriminate Hd; cbn [call].
  - unfold returning, bind; rewrite generate_payment_address_unfold.
    rewrite process_request_run, Hd, Hreply, Hout; now split.
  - unfold get_payment_logs; step_instance.
    rewrite Hd, Hreply, Hout; now split.
  - unfold get_qrcode; step_instance.
    rewrite Hd, Hreply, Hout; now split.
  - apply andb_prop in Hd; destruct Hd as [Hfrom Hd].
    destruct from as [[|f0 f]|]; try discriminate Hfrom.
    unfold get_conversion; step_instance.
    rewrite Hd, Hreply, Hout; now split.
  - unfold get_info; step_static.
    rewrite Hreply, Hout; now split.
  - unfold get_supported_coins, get_info; step_static.
    rewrite Hreply, Hout; now split.
  - destruct coin as [[|c0 coin]|]; try discriminate Hd.
    unfold get_coin_info; step_static.
    rewrite Hreply, Hout; now split.
  - destruct coin as [[|c0 coin]|]; try discriminate Hd.
    unfold get_estimate_fees; step_static.
    rewrite Hreply, Hout; now split.
Qed.

(** ** What goes out *)

(** X3: an operation sends exactly one request when it reaches its
    dispatch and none otherwise, whatever the gateway answers: no retry and
    no second request.  The request goes to the gateway's base URL with the
    [Host] header pinned, and its URL has no underscore left in it. *)
Theorem call_sends_one_request :
  forall op h,
    let before := sent (fst h) in
    let after := sent (fst (fst (call gateway json_loads str_upper op h))) in
    (dispatches op h = true ->
     exists req, after = (before ++ [req])%list /\ gateway_request req = true)
    /\ (dispatches op h = false -> after = before).
Proof.
  intros op [w c] before after; subst before after; cbn [fst snd].
  assert (Hsent : forall coin endpoint params (w' : world),
             sent w' = sent (log_request (the_request coin endpoint params) w) ->
             Str.contains "_" endpoint = false ->
             exists req, sent w' = (sent w ++ [req])%list
                         /\ gateway_request req = true).
  { intros coin endpoint params w' -> Hend.
    eexists; split; [reflexivity | now apply the_request_gateway]. }
  destruct op as [b e p| |size|from value| | | |coin|coin n p];
    cbn [dispatches fst snd call].
  - unfold returning, bind; rewrite generate_payment_address_unfold.
    rewrite process_request_run.
    destruct (session_is_open _ w); split; try discriminate; intros _;
      [|reflexivity].
    eapply Hsent.
    { destruct (outcome_of_reply _ _) as [[|kv data]|ex]; try reflexivity.
      destruct (Dict.get _ _); reflexivity. }
    reflexivity.
  - unfold get_payment_logs; step_instance.
    destruct (session_is_open _ w); split; try discriminate; intros _;
      [|reflexivity].
    eapply Hsent.
    { now destruct (outcome_of_reply _ _). }
    reflexivity.
  - unfold get_qrcode; step_instance.
    destruct (session_is_open _ w); split; try discriminate; intros _;
      [|reflexivity].
    eapply Hsent.
    { now destruct (outcome_of_reply _ _). }
    reflexivity.
  - unfold get_conversion.
    destruct from as [[|f0 f]|]; cbn [truthy_str andb];
      try (split; [discriminate | reflexivity]).
    step_instance.
    destruct (session_is_open _ w); split; try discriminate; intros _;
      [|reflexivity].
    eapply Hsent.
    { now destruct (outcome_of_reply _ _). }
    reflexivity.
  - split; [discriminate | reflexivity].
  - unfold get_info; step_static; split; try discriminate; intros _.
    eapply Hsent.
    { now destruct (outcome_of_reply _ _). }
    reflexivity.
  - unfold get_supported_coins, get_info; step_static.
    split; try discriminate; intros _.
    eapply Hsent.
    { destruct (outcome_of_reply _ _) as [data|ex]; [|reflexivity].
      unfold of_result; now destruct (for_each _ _ _). }
    reflexivity.
  - unfold get_coin_info.
    destruct coin as [[|c0 coin]|]; cbn [truthy_str];
      try (split; [discriminate | reflexivity]).
    step_static; split; try discriminate; intros _.
    eapply Hsent.
    { now destruct (outcome_of_reply _ _). }
    reflexivity.
  - unfold get_estimate_fees.
    destruct coin as [[|c0 coin]|]; cbn [truthy_str];
      try (split; [discriminate | reflexivity]).
    step_static; split; try discriminate; intros _.
    eapply Hsent.
    { now destruct (outcome_of_reply _ _). }
    reflexivity.
Qed.

(** ** Sessions *)

(** What an operation does to the sessions: [close] closes the helper's
    own, every other operation leaves the open sessions as they were. *)
Lemma call_open_sessions op w c :
  sessions_numbered w = true ->
  let w' := fst (fst (call gateway json_loads str_upper op (w, c))) in
  open_sessions w'
  = (if is_close op
     then filter (fun t => negb (Nat.eqb (_aio_session c) t)) (open_sessions w)
     else open_sessions w)
  /\ next_session w <= next_session w'.
Proof.
  intros Hnum w'; subst w'.
  destruct op as [b e p| |size|from value| | | |coin|coin n p];
    cbn [is_close call].
  - unfold returning, bind; rewrite generate_payment_address_unfold.
    rewrite process_request_run.
    destruct (session_is_open _ w); [|now split].
    destruct (outcome_of_reply _ _) as [[|kv data]|ex]; try (now split).
    destruct (Dict.get _ _); now split.
  - unfold get_payment_logs; step_instance.
    destruct (session_is_open _ w); [|now split].
    destruct (outcome_of_reply _ _); now split.
  - unfold get_qrcode; step_instance.
    destruct (session_is_open _ w); [|now split].
    destruct (outcome_of_reply _ _); now split.
  - unfold get_conversion.
    destruct from as [[|f0 f]|]; try (now split).
    step_instance.
    destruct (session_is_open _ w); [|now split].
    destruct (outcome_of_reply _ _); now split.
  - now split.
  - unfold get_info; step_static.
    destruct (outcome_of_reply _ _); cbn [fst];
      (split; [now apply after_own_session_open | cbn; lia]).
  - unfold get_supported_coins, get_info; step_static.
    destruct (outcome_of_reply _ _) as [data|ex]; cbn [fst].
    + unfold of_result; destruct (for_each _ _ _); cbn [fst];
        (split; [now apply after_own_session_open | cbn; lia]).
    + split; [now apply after_own_session_open | cbn; lia].
  - unfold get_coin_info.
    destruct coin as [[|c0 coin]|]; try (now split).
    step_static.
    destruct (outcome_of_reply _ _); cbn [fst];
      (split; [now apply after_own_session_open | cbn; lia]).
  - unfold get_estimate_fees.
    destruct coin as [[|c0 coin]|]; try (now split).
    step_static.
    destruct (outcome_of_reply _ _); cbn [fst];
      (split; [now apply after_own_session_open | cbn; lia]).
Qed.

Lemma call_numbered op w c :
  sessions_numbered w = true ->
  sessions_numbered (fst (fst (call gateway json_loads str_upper op (w, c)))) =
      true.
Proof.
  intros Hnum.
  destruct (call_open_sessions op w c Hnum) as [Hopen Hnext].
  unfold sessions_numbered in *; rewrite Hopen.
  apply (numbered_weaken (next_session w) _ (open_sessions w));
    [exact Hnext| |exact Hnum].
  destruct (is_close op); [|apply incl_refl].
  intros s Hs; now apply filter_In in Hs.
Qed.

(** X4: a context-free operation opens a session of its own and closes it
    again on every path, whether its dispatch returns or raises: afterwards
    the open sessions are the ones that were open before, and the helper
    the caller holds is untouched. *)
Theorem context_free_closes_its_session :
  forall op h,
    is_context_free op = true ->
    sessions_numbered (fst h) = true ->
    let after := fst (call gateway json_loads str_upper op h) in
    open_sessions (fst after) = open_sessions (fst h)
    /\ sessions_numbered (fst after) = true
    /\ snd after = snd h.
Proof.
  intros op [w c] Hfree Hnum after; subst after; cbn [fst snd] in *.
  destruct (call_open_sessions op w c Hnum) as [Hopen _].
  split; [|split].
  - rewrite Hopen; now destruct op.
  - now apply call_numbered.
  - apply (call_keeps_self gateway json_loads str_upper op); now destruct op.
Qed.

(** X7: once the helper is closed, each of its operations that would send
    on its session raises [RuntimeError] instead, sends nothing and leaves
    the world and the helper as [close] left them. *)
Theorem use_after_close_raises :
  forall op h,
    uses_own_session op = true ->
    let closed := fst (close h) in
    call gateway json_loads str_upper op closed
    = (closed, Raise (RuntimeError "Session is closed")).
Proof.
  intros op [w c] Huses closed.
  destruct (close_releases_own_session (w, c)) as (_ & _ & Hself & Hclosed & _).
  fold closed in Hself, Hclosed; cbn [fst snd] in Hself, Hclosed.
  destruct closed as [w' c']; cbn [fst snd] in *; subst c'.
  destruct op as [b e p| |size|from value| | | |coin|coin n p];
    try discriminate Huses; cbn [call].
  - unfold returning, bind; rewrite generate_payment_address_unfold.
    now rewrite process_request_run, Hclosed.
  - unfold get_payment_logs; step_instance; now rewrite Hclosed.
  - unfold get_qrcode; step_instance; now rewrite Hclosed.
  - destruct from as [[|f0 f]|]; try discriminate Huses.
    unfold get_conversion; step_instance; now rewrite Hclosed.
Qed.

(** X8: nothing but [close] closes the helper's session.  Over a run of
    operations without [close], on a world whose sessions are numbered, the
    helper keeps its session and the session is open after the run exactly
    when it was open before. *)
Theorem session_open_until_close :
  forall ops h,
    sessions_numbered (fst h) = true ->
    forallb (fun op => negb (is_close op)) ops = true ->
    let after := run gateway json_loads str_upper ops h in
    _aio_session (snd after) = _aio_session (snd h)
    /\ session_is_open (_aio_session (snd after)) (fst after)
       = session_is_open (_aio_session (snd h)) (fst h)
    /\ sessions_numbered (fst after) = true.
Proof.
  intros ops; induction ops as [|op ops IH]; intros [w c] Hnum Hall after;
    subst after; [now repeat split|].
  cbn [forallb] in Hall; apply andb_prop in Hall; destruct Hall as [Hop Hall].
  apply negb_true_iff in Hop.
  cbn [run fold_left fst snd] in *.
  destruct (call_open_sessions op w c Hnum) as [Hopen _].
  pose proof (call_numbered op w c Hnum) as Hnum'.
  destruct (call_fields gateway json_loads str_upper op (w, c)) as (_ & _ & _ &
      Hsession).
  cbv zeta in Hsession; cbn [snd] in Hsession.
  rewrite Hop in Hopen.
  destruct (call gateway json_loads str_upper op (w, c)) as [[w' c'] r];
    cbn [fst snd] in *.
  destruct (IH (w', c') Hnum' Hall) as (Hs & Ho & Hn); cbn [fst snd] in *.
  unfold run in *; split; [|split].
  - now rewrite Hs.
  - rewrite Ho, Hsession; unfold session_is_open; now rewrite Hopen.
  - exact Hn.
Qed.

(** ** The operations, one by one *)

(** X9: the two answers without [address_in].  On the empty object
    [generate_payment_address] returns the empty object; on any other
    object that is not an error and has no [address_in] it raises
    [KeyError] for that key.  Either way the request went out and the
    helper is unchanged. *)
Theorem generate_payment_address_without_address_in :
  forall b e p w self text (data : dict),
    session_is_open (_aio_session self) w = true ->
    let req := the_request (coin self) "create" (create_params self b e p) in
    gateway (sent w) req = Body text ->
    json_loads text = Some (VDict data) ->
    Dict.get "status" data <> Some (VStr "error") ->
    Dict.get "address_in" data = None ->
    generate_payment_address gateway json_loads b e p (w, self)
    = ((log_request req w, self),
       match data with
       | [] => Ok (Some [])
       | _ :: _ => Raise (KeyError "address_in")
       end).
Proof.
  intros b e p w c text data Hopen req Hreply Hjson Hstatus Hin.
  rewrite generate_payment_address_unfold, process_request_run, Hopen.
  fold req; rewrite Hreply; cbn [outcome_of_reply].
  rewrite Hjson, (outcome_pass _ Hstatus).
  destruct data as [|kv data]; [reflexivity | now rewrite Hin].
Qed.

(** X10: [get_payment_logs] on an open session sends one request to the
    endpoint "logs" of the helper's coin with the single parameter
    [callback] = the helper's callback URL, and returns or raises what the
    dispatch makes of the answer; the helper is unchanged. *)
Theorem get_payment_logs_request :
  forall w self,
    session_is_open (_aio_session self) w = true ->
    let req := the_request (coin self) "logs"
                           [("callback", VStr (callback_url self))] in
    get_payment_logs gateway json_loads (w, self)
    = ((log_request req w, self),
       outcome_of_reply json_loads (gateway (sent w) req)).
Proof.
  intros w c Hopen req.
  unfold get_payment_logs; step_instance; now rewrite Hopen.
Qed.

(** X11: [get_conversion] with a source coin, on an open session, sends
    one request to the endpoint "convert" of the helper's coin with the
    parameters [from] = the source coin and [value] = the value, whatever
    the value is, and returns or raises what the dispatch makes of the
    answer; the helper is unchanged. *)
Theorem get_conversion_request :
  forall (from_coin : string) (value : Z) w self,
    from_coin <> "" ->
    session_is_open (_aio_session self) w = true ->
    let req := the_request (coin self) "convert"
                           [("from", VStr from_coin); ("value", VInt value)] in
    get_conversion gateway json_loads (Some from_coin) value (w, self)
    = ((log_request req w, self),
       outcome_of_reply json_loads (gateway (sent w) req)).
Proof.
  intros from value w c Hfrom Hopen req.
  destruct from as [|f0 from]; [now elim Hfrom|].
  unfold get_conversion; step_instance; now rewrite Hopen.
Qed.

(** X12: [get_info] asks "https://api.cryptapi.io/info/" (no coin segment)
    and [get_coin_info] the same endpoint under the coin's segment, both
    with the parameter [prices] = "0", each on a session of its own; they
    return or raise what the dispatch makes of the answer. *)
Theorem get_info_requests :
  forall (coin : string) w,
    coin <> "" ->
    let prices : dict := [("prices", VStr "0")] in
    let info := {| req_url := "https://api.cryptapi.io/info/";
                   req_params := prices;
                   req_headers := [("Host", "api.cryptapi.io")] |} in
    let coin_info :=
      {| req_url := "https://api.cryptapi.io/"
                      ++ Str.replace "_" "/" coin ++ "/info/";
         req_params := prices;
         req_headers := [("Host", "api.cryptapi.io")] |} in
    get_info gateway json_loads w
    = (after_own_session info w,
       outcome_of_reply json_loads (gateway (sent w) info))
    /\ get_coin_info gateway json_loads (Some coin) w
       = (after_own_session coin_info w,
          outcome_of_reply json_loads (gateway (sent w) coin_info)).
Proof.
  intros coin w Hcoin prices info coin_info.
  destruct coin as [|c0 coin]; [now elim Hcoin|].
  assert (Hreq : the_request (String c0 coin) "info" prices = coin_info).
  { unfold the_request, coin_info; cbn [String.eqb].
    now rewrite append_assoc. }
  split.
  - unfold get_info; now rewrite with_session_run.
  - unfold get_coin_info.
    change (Dict.of_list [("prices", VStr "0")]) with prices.
    now rewrite with_session_run, Hreq.
Qed.

(** X13: [get_estimate_fees] with a coin asks the endpoint "estimate" under
    the coin's segment with the parameters [addresses] and [priority] as
    given, on a session of its own, and returns or raises what the
    dispatch makes of the answer. *)
Theorem get_estimate_fees_request :
  forall (coin : string) (addresses : Z) (priority : string) w,
    coin <> "" ->
    let req :=
      {| req_url := "https://api.cryptapi.io/"
                      ++ Str.replace "_" "/" coin ++ "/estimate/";
         req_params := [("addresses", VInt addresses);
                        ("priority", VStr priority)];
         req_headers := [("Host", "api.cryptapi.io")] |} in
    get_estimate_fees gateway json_loads (Some coin) addresses priority w
    = (after_own_session req w,
       outcome_of_reply json_loads (gateway (sent w) req)).
Proof.
  intros coin addresses priority w Hcoin req.
  destruct coin as [|c0 coin]; [now elim Hcoin|].
  assert (Hreq : the_request (String c0 coin) "estimate"
                   [("addresses", VInt addresses); ("priority", VStr priority)]
                 = req).
  { unfold the_request, req; cbn [String.eqb].
    now rewrite append_assoc. }
  unfold get_estimate_fees.
  change (Dict.of_list [("addresses", VInt addresses);
                        ("priority", VStr priority)])
    with [("addresses", VInt addresses); ("priority", VStr priority)].
  now rewrite with_session_run, Hreq.
Qed.

(** X14: address generation feeds the QR code.  After a call of
    [generate_payment_address] that was answered with a string
    [address_in], a call of [get_qrcode] sends that string as its
    [address], on the same coin, right after the "create" request. *)
Theorem generate_then_qrcode :
  forall b e p (size : Z) w self text (data : dict) (address : string),
    session_is_open (_aio_session self) w = true ->
    let create := the_request (coin self) "create" (create_params self b e p) in
    gateway (sent w) create = Body text ->
    json_loads text = Some (VDict data) ->
    Dict.get "status" data <> Some (VStr "error") ->
    Dict.get "address_in" data = Some (VStr address) ->
    let generated :=
      fst (generate_payment_address gateway json_loads b e p (w, self)) in
    sent (fst (fst (get_qrcode gateway json_loads size generated)))
    = (sent w ++ [create;
                  the_request (coin self) "qrcode"
                    [("address", VStr address); ("value", VStr "");
                     ("size", VInt size)]])%list.
Proof.
  intros b e p size w c text data address Hopen create Hreply Hjson Hstatus
         Hin generated.
  subst generated.
  rewrite generate_payment_address_unfold, process_request_run, Hopen.
  fold create; rewrite Hreply; cbn [outcome_of_reply].
  rewrite Hjson, (outcome_pass _ Hstatus).
  destruct data as [|kv data]; [discriminate Hin|]; rewrite Hin; cbn [fst].
  unfold get_qrcode; step_instance.
  cbn [with_payment_address _aio_session coin payment_address].
  assert (Hopen' : session_is_open (_aio_session c) (log_request create w) = true)
    by exact Hopen.
  rewrite Hopen'; cbn [fst log_request sent].
  now rewrite <- app_assoc.
Qed.

(** ** The catalogue, off the expected shape *)

Lemma get_supported_coins_unfold w :
  get_supported_coins gateway json_loads str_upper w
  = let req := the_request "" "info" [("prices", VStr "0")] in
    (after_own_session req w,
     match outcome_of_reply json_loads (gateway (sent w) req) with
     | Ok _info => for_each (ticker_entry str_upper) (without_fee_tiers _info) []
     | Raise ex => Raise ex
     end).
Proof.
  unfold get_supported_coins, get_info, bind.
  change (Dict.of_list [("prices", VStr "0")]) with [("prices", VStr "0")].
  rewrite with_session_run; cbv zeta.
  destruct (outcome_of_reply _ _) as [_info|ex]; [|reflexivity].
  unfold of_result; now rewrite pop_filter.
Qed.

(** X15: on a decoded object that is not an error, [get_supported_coins]
    returns a mapping exactly when, [fee_tiers] apart, every top-level value
    is an object that either has a [coin] field or maps each of its tokens
    to an object whose [coin] is a string; on any other object it raises. *)
Theorem get_supported_coins_succeeds_iff :
  forall w text (info : dict),
    gateway (sent w) (the_request "" "info" [("prices", VStr "0")]) = Body text ->
    json_loads text = Some (VDict info) ->
    Dict.get "status" info <> Some (VStr "error") ->
    is_ok (snd (get_supported_coins gateway json_loads str_upper w)) =
        info_payload info.
Proof.
  intros w text info Hreply Hjson Hstatus.
  rewrite get_supported_coins_unfold; cbv zeta; cbn [snd].
  rewrite Hreply; cbn [outcome_of_reply].
  rewrite Hjson, (outcome_pass _ Hstatus).
  apply ticker_loop_ok.
Qed.

(** X16: what [get_supported_coins] raises on the first entry off the
    shape, the entries before it being in shape.  A top-level value that is
    not an object (a [status] string, say) raises [AttributeError]; in a
    chain, a token that is not an object or whose [coin] is not a string
    raises [TypeError], and a token object without [coin] raises
    [KeyError]. *)
Theorem get_supported_coins_off_shape :
  forall w text (info shaped rest : dict) (ticker : string) (v : Any),
    gateway (sent w) (the_request "" "info" [("prices", VStr "0")]) = Body text ->
    json_loads text = Some (VDict info) ->
    Dict.get "status" info <> Some (VStr "error") ->
    without_fee_tiers info = (shaped ++ (ticker, v) :: rest)%list ->
    forallb is_coin_or_chain shaped = true ->
    let raised := snd (get_supported_coins gateway json_loads str_upper w) in
    ((forall d, v <> VDict d) -> raised = Raise AttributeError)
    /\ (forall (tokens good more : dict) (token : string) (t : Any),
           v = VDict tokens ->
           Dict.get "coin" tokens = None ->
           tokens = (good ++ (token, t) :: more)%list ->
           forallb is_token good = true ->
           ((forall d, t <> VDict d) -> raised = Raise TypeError)
           /\ (forall d, t = VDict d -> Dict.get "coin" d = None ->
                         raised = Raise (KeyError "coin"))
           /\ (forall d name, t = VDict d -> Dict.get "coin" d = Some name ->
                              (forall s, name <> VStr s) ->
                              raised = Raise TypeError)).
Proof.
  intros w text info shaped rest ticker v Hreply Hjson Hstatus Hsplit Hshaped
         raised.
  subst raised; rewrite get_supported_coins_unfold; cbv zeta; cbn [snd].
  rewrite Hreply; cbn [outcome_of_reply].
  rewrite Hjson, (outcome_pass _ Hstatus), Hsplit, for_each_app.
  rewrite (ticker_loop str_upper _ _ Hshaped); cbn [for_each ticker_entry].
  split.
  - intros Hv; destruct v; try reflexivity; now elim (Hv d).
  - intros tokens good more token t -> Hcoin -> Hgood.
    rewrite Hcoin, for_each_app, (chain_loop str_upper _ _ _ Hgood).
    cbn [for_each token_entry].
    split; [|split].
    + intros Ht; destruct t; try reflexivity; now elim (Ht d).
    + intros d -> Hd; now rewrite Hd.
    + intros d name -> Hd Hname; rewrite Hd.
      destruct name; try reflexivity; now elim (Hname s).
Qed.

(** ** A key assigned twice *)

(** X17: in the mapping [get_supported_coins] returns every key stands
    once, and it carries the display name assigned to it last: when two
    entries of the payload flatten to the same key, the later one wins. *)
Theorem get_supported_coins_last_wins :
  forall w text (info returned : dict),
    gateway (sent w) (the_request "" "info" [("prices", VStr "0")]) = Body text ->
    json_loads text = Some (VDict info) ->
    info_payload info = true ->
    snd (get_supported_coins gateway json_loads str_upper w) = Ok returned ->
    NoDup (Dict.keys returned)
    /\ forall key,
         Dict.get key returned = last_assigned key (supported_entries str_upper info).
Proof.
  intros w text info returned Hreply Hjson Hshape Hreturned.
  rewrite (get_supported_coins_run gateway json_loads str_upper _ _ _ Hreply
      Hjson Hshape)
    in Hreturned.
  injection Hreturned as <-; unfold Dict.of_list; split.
  - apply update_keys_NoDup; apply NoDup_nil.
  - intros key; rewrite get_update; unfold last_assigned.
    now destruct (Dict.get key (rev (supported_entries str_upper info))).
Qed.

(** ** Two spellings of a coin *)

(** X19: a coin spelt with slashes is the coin spelt with underscores.
    Dispatching for a coin and for the same coin with its underscores
    already turned into slashes (the smoke test's "polygon/usdt") sends the
    same request and gives the same result. *)
Theorem process_request_slashed_coin :
  forall session (coin : string) endpoint params w,
    process_request gateway json_loads session
                    (Some (Str.replace "_" "/" coin)) endpoint params w
    = process_request gateway json_loads session (Some coin) endpoint params w.
Proof.
  intros session coin endpoint params w.
  assert (Hreq : the_request (Str.replace "_" "/" coin) endpoint params
                 = the_request coin endpoint params).
  { unfold the_request; rewrite replace_twice by discriminate.
    now destruct coin. }
  now rewrite !process_request_run, Hreq.
Qed.

End Coverage.

(** * Concrete runs of the further properties *)

Lemma process_request_failures_witness :
  session_is_open 0 Sample.w1 = true
  /\ Sample.json_loads "not json" = None
  /\ process_request (Sample.gateway "not json") Sample.json_loads 0
                     (Some "btc") "logs" [] Sample.w1
     = (log_request (the_request "btc" "logs" []) Sample.w1,
        Raise JSONDecodeError).
Proof.
  split; [reflexivity|]; split; [reflexivity|].
  destruct (process_request_failures (Sample.gateway "not json")
              Sample.json_loads 0 "btc" "logs" [] Sample.w1 eq_refl)
    as (_ & Hworld & _ & Hjson & _).
  specialize (Hjson "not json" eq_refl eq_refl).
  rewrite (surjective_pairing (process_request _ _ _ _ _ _ _)).
  now rewrite Hworld, Hjson.
Defined.

Lemma call_surfaces_dispatch_failure_witness :
  dispatches GetPaymentLogs (Sample.w1, Sample.self) = true
  /\ outcome_of_reply Sample.json_loads (Unreachable "timeout")
     = Raise (ClientError "timeout")
  /\ snd (call (Cases.unreachable "timeout") Sample.json_loads Str.upper
      GetPaymentLogs
               (Sample.w1, Sample.self))
     = Raise (ClientError "timeout").
Proof.
  split; [reflexivity|]; split; [reflexivity|].
  exact (proj1 (call_surfaces_dispatch_failure (Cases.unreachable "timeout")
      Sample.json_loads Str.upper GetPaymentLogs (Sample.w1, Sample.self)
                  (Unreachable "timeout") (ClientError "timeout")
                  eq_refl (fun _ => eq_refl) eq_refl)).
Defined.

Lemma call_sends_one_request_witness :
  dispatches (GetQrcode 512) (Sample.w1, Sample.self) = true
  /\ dispatches (GetConversion None 10) (Sample.w1, Sample.self) = false
  /\ (exists req,
         sent (fst (fst (call (Sample.gateway "created") Sample.json_loads
             Str.upper
                              (GetQrcode 512) (Sample.w1, Sample.self))))
         = [req] /\ gateway_request req = true)
  /\ sent (fst (fst (call (Sample.gateway "created") Sample.json_loads Str.upper
                          (GetConversion None 10) (Sample.w1, Sample.self))))
     = [].
Proof.
  split; [reflexivity|]; split; [reflexivity|]; split.
  - exact (proj1 (call_sends_one_request (Sample.gateway "created")
      Sample.json_loads Str.upper (GetQrcode 512) (Sample.w1, Sample.self))
                 eq_refl).
  - exact (proj2 (call_sends_one_request (Sample.gateway "created")
      Sample.json_loads Str.upper (GetConversion None 10)
                    (Sample.w1, Sample.self))
                 eq_refl).
Defined.

Lemma context_free_closes_its_session_witness :
  is_context_free GetSupportedCoins = true
  /\ sessions_numbered Sample.w1 = true
  /\ open_sessions
       (fst (fst (call (Sample.gateway "info") Sample.json_loads Str.upper
                       GetSupportedCoins (Sample.w1, Sample.self))))
     = [0].
Proof.
  split; [reflexivity|]; split; [reflexivity|].
  exact (proj1 (context_free_closes_its_session (Sample.gateway "info")
      Sample.json_loads Str.upper GetSupportedCoins (Sample.w1, Sample.self)
                  eq_refl eq_refl)).
Defined.

Lemma init_opens_fresh_session_witness :
  sessions_numbered Sample.w1 = true
  /\ __init__ (Some "btc") (Some "1Owner") (Some "https://example.com/btc")
              Sample.w1
     = (Cases.w2, Ok Cases.second)
  /\ session_is_open 1 Sample.w1 = false
  /\ session_is_open 1 Cases.w2 = true
  /\ session_is_open 0 Cases.w2 = session_is_open 0 Sample.w1.
Proof.
  split; [reflexivity|]; split; [reflexivity|].
  destruct (init_opens_fresh_session (Some "btc") (Some "1Owner")
              (Some "https://example.com/btc") Sample.w1 Cases.w2 Cases.second
              eq_refl eq_refl)
    as (Hbefore & Hafter & Hothers & _).
  split; [exact Hbefore|]; split; [exact Hafter|].
  apply (Hothers 0); discriminate.
Defined.

Lemma close_releases_own_session_witness :
  let closed := fst (close (Cases.w2, Cases.second)) in
  session_is_open 1 (fst closed) = false
  /\ session_is_open 0 (fst closed) = session_is_open 0 Cases.w2.
Proof.
  intros closed.
  destruct (close_releases_own_session (Cases.w2, Cases.second))
    as (_ & _ & _ & Hclosed & Hothers & _).
  split; [exact Hclosed|].
  apply (Hothers 0); discriminate.
Defined.

Lemma use_after_close_raises_witness :
  uses_own_session GetPaymentLogs = true
  /\ call (Sample.gateway "created") Sample.json_loads Str.upper GetPaymentLogs
          (fst (close (Sample.w1, Sample.self)))
     = (({| next_session := 1; open_sessions := []; sent := [] |}, Sample.self),
        Raise (RuntimeError "Session is closed")).
Proof.
  split; [reflexivity|].
  exact (use_after_close_raises (Sample.gateway "created") Sample.json_loads
      Str.upper
           GetPaymentLogs (Sample.w1, Sample.self) eq_refl).
Defined.

Lemma session_open_until_close_witness :
  let ops := [GetInfo; GetPaymentLogs; GetCoinInfo None;
              GeneratePaymentAddress true None "default"] in
  sessions_numbered Sample.w1 = true
  /\ forallb (fun op => negb (is_close op)) ops = true
  /\ session_is_open 0
       (fst (run (Sample.gateway "created") Sample.json_loads Str.upper ops
                 (Sample.w1, Sample.self)))
     = true.
Proof.
  intros ops.
  split; [reflexivity|]; split; [reflexivity|].
  destruct (session_open_until_close (Sample.gateway "created")
      Sample.json_loads Str.upper ops (Sample.w1, Sample.self) eq_refl eq_refl)
    as (Hsame & Hopen & _).
  cbn [snd fst] in Hsame, Hopen.
  rewrite Hsame in Hopen; exact Hopen.
Defined.

Lemma generate_payment_address_without_address_in_witness :
  session_is_open (_aio_session Sample.self) Sample.w1 = true
  /\ Sample.json_loads "success without address"
     = Some (VDict [("status", VStr "success")])
  /\ Cases.json_loads "empty" = Some (VDict [])
  /\ snd (generate_payment_address (Sample.gateway "success without address")
            Sample.json_loads false None "default" (Sample.w1, Sample.self))
     = Raise (KeyError "address_in")
  /\ snd (generate_payment_address (Sample.gateway "empty")
            Cases.json_loads false None "default" (Sample.w1, Sample.self))
     = Ok (Some []).
Proof.
  split; [reflexivity|]; split; [reflexivity|]; split; [reflexivity|].
  split.
  - refine (f_equal snd
              (generate_payment_address_without_address_in
                 (Sample.gateway "success without address") Sample.json_loads
                 false None "default" Sample.w1 Sample.self
                 "success without address" [("status", VStr "success")]
                 eq_refl eq_refl eq_refl _ eq_refl)).
    discriminate.
  - refine (f_equal snd
              (generate_payment_address_without_address_in
                 (Sample.gateway "empty") Cases.json_loads
                 false None "default" Sample.w1 Sample.self
                 "empty" [] eq_refl eq_refl eq_refl _ eq_refl)).
    discriminate.
Defined.

Lemma get_payment_logs_request_witness :
  session_is_open (_aio_session Sample.self) Sample.w1 = true
  /\ get_payment_logs (Sample.gateway "created") Sample.json_loads
                      (Sample.w1, Sample.self)
     = ((log_request
           {| req_url := "https://api.cryptapi.io/polygon/usdt/logs/";
              req_params := [("callback", VStr "https://example.com/callback")];
              req_headers := [("Host", "api.cryptapi.io")] |}
           Sample.w1,
         Sample.self),
        Ok Sample.created_reply).
Proof.
  split; [reflexivity|].
  exact (get_payment_logs_request (Sample.gateway "created") Sample.json_loads
           Sample.w1 Sample.self eq_refl).
Defined.

Lemma get_conversion_request_witness :
  "usd" <> ""
  /\ session_is_open (_aio_session Sample.self) Sample.w1 = true
  /\ get_conversion (Sample.gateway "error") Sample.json_loads (Some "usd") 10
                    (Sample.w1, Sample.self)
     = ((log_request
           {| req_url := "https://api.cryptapi.io/polygon/usdt/convert/";
              req_params := [("from", VStr "usd"); ("value", VInt 10)];
              req_headers := [("Host", "api.cryptapi.io")] |}
           Sample.w1,
         Sample.self),
        Raise (CryptAPIException (VStr "bad address"))).
Proof.
  assert (Hfrom : "usd" <> "") by discriminate.
  split; [exact Hfrom|]; split; [reflexivity|].
  exact (get_conversion_request (Sample.gateway "error") Sample.json_loads
           "usd" 10%Z Sample.w1 Sample.self Hfrom eq_refl).
Defined.

Lemma get_info_requests_witness :
  "trc20_usdt" <> ""
  /\ sent (fst (get_coin_info (Sample.gateway "info") Sample.json_loads
                              (Some "trc20_usdt") Sample.w0))
     = [ {| req_url := "https://api.cryptapi.io/trc20/usdt/info/";
            req_params := [("prices", VStr "0")];
            req_headers := [("Host", "api.cryptapi.io")] |} ].
Proof.
  assert (Hcoin : "trc20_usdt" <> "") by discriminate.
  split; [exact Hcoin|].
  exact (f_equal (fun r => sent (fst r))
           (proj2 (get_info_requests (Sample.gateway "info") Sample.json_loads
                     "trc20_usdt" Sample.w0 Hcoin))).
Defined.

Lemma get_estimate_fees_request_witness :
  "btc" <> ""
  /\ sent (fst (get_estimate_fees (Sample.gateway "info") Sample.json_loads
                                  (Some "btc") 2 "fast" Sample.w0))
     = [ {| req_url := "https://api.cryptapi.io/btc/estimate/";
            req_params := [("addresses", VInt 2); ("priority", VStr "fast")];
            req_headers := [("Host", "api.cryptapi.io")] |} ].
Proof.
  assert (Hcoin : "btc" <> "") by discriminate.
  split; [exact Hcoin|].
  exact (f_equal (fun r => sent (fst r))
           (get_estimate_fees_request (Sample.gateway "info") Sample.json_loads
              "btc" 2%Z "fast" Sample.w0 Hcoin)).
Defined.

Lemma generate_then_qrcode_witness :
  session_is_open (_aio_session Sample.self) Sample.w1 = true
  /\ Sample.json_loads "created" = Some (VDict Sample.created_reply)
  /\ sent (fst (fst (get_qrcode (Sample.gateway "created") Sample.json_loads 256
                       (fst (generate_payment_address (Sample.gateway "created")
                               Sample.json_loads false None "default"
                               (Sample.w1, Sample.self))))))
     = [the_request "polygon_usdt" "create"
          (create_params Sample.self false None "default");
        the_request "polygon_usdt" "qrcode"
          [("address", VStr "X"); ("value", VStr ""); ("size", VInt 256)]].
Proof.
  split; [reflexivity|]; split; [reflexivity|].
  refine (generate_then_qrcode (Sample.gateway "created") Sample.json_loads
            false None "default" 256%Z Sample.w1 Sample.self "created"
            Sample.created_reply "X" eq_refl eq_refl eq_refl _ eq_refl).
  discriminate.
Defined.

Lemma get_supported_coins_succeeds_iff_witness :
  Cases.json_loads "info with status" = Some (VDict Cases.info_with_status)
  /\ info_payload Cases.info_with_status = false
  /\ is_ok (snd (get_supported_coins (Sample.gateway "info with status")
      Cases.json_loads Str.upper Sample.w0))
     = false.
Proof.
  split; [reflexivity|]; split; [reflexivity|].
  refine (get_supported_coins_succeeds_iff (Sample.gateway "info with status")
      Cases.json_loads Str.upper Sample.w0 "info with status"
            Cases.info_with_status eq_refl eq_refl _).
  discriminate.
Defined.

Lemma get_supported_coins_off_shape_witness :
  Cases.json_loads "info with status" = Some (VDict Cases.info_with_status)
  /\ without_fee_tiers Cases.info_with_status
     = [("btc", VDict [("coin", VStr "Bitcoin")]); ("status", VStr "success")]
  /\ snd (get_supported_coins (Sample.gateway "info with status")
      Cases.json_loads Str.upper Sample.w0)
     = Raise AttributeError.
Proof.
  split; [reflexivity|]; split; [reflexivity|].
  assert (Hstatus : Dict.get "status" Cases.info_with_status
                    <> Some (VStr "error")) by discriminate.
  refine (proj1 (get_supported_coins_off_shape
                   (Sample.gateway "info with status") Cases.json_loads Str.upper
                   Sample.w0 "info with status" Cases.info_with_status
                   [("btc", VDict [("coin", VStr "Bitcoin")])] []
                   "status" (VStr "success")
                   eq_refl eq_refl Hstatus eq_refl eq_refl) _).
  discriminate.
Defined.

Lemma get_supported_coins_last_wins_witness :
  Sample.json_loads "info" = Some (VDict Sample.info_reply)
  /\ info_payload Sample.info_reply = true
  /\ Dict.get "trc20_usdt"
       [("btc", VStr "Bitcoin"); ("trc20_usdt", VStr "Tether (TRC20)")]
     = last_assigned "trc20_usdt" (supported_entries Str.upper Sample.info_reply).
Proof.
  split; [reflexivity|]; split; [reflexivity|].
  exact (proj2 (get_supported_coins_last_wins (Sample.gateway "info")
      Sample.json_loads Str.upper Sample.w0 "info" Sample.info_reply
                  [("btc", VStr "Bitcoin"); ("trc20_usdt", VStr "Tether (TRC20)")]
                  eq_refl eq_refl eq_refl eq_refl)
               "trc20_usdt").
Defined.

Lemma init_succeeds_iff_witness :
  snd (__init__ (Some "btc") (Some "1Owner") (Some "https://example.com/btc")
                Sample.w1)
  = Ok Cases.second
  /\ Some (coin Cases.second) = Some "btc"
  /\ _aio_session Cases.second = 1.
Proof.
  split; [reflexivity|].
  destruct (proj2 (init_succeeds_iff (Some "btc") (Some "1Owner")
                     (Some "https://example.com/btc") Sample.w1)
                  Cases.second eq_refl)
    as (Hcoin & _ & _ & _ & Hsession & _).
  split; [exact Hcoin | exact Hsession].
Defined.
